(** * Boxplot plugin: column classifier and statistics aggregator

    A shallow embedding of the data-to-statistics pipeline of the
    perspective-viewer boxplot plugin, in its two variants:

    - [Plugin]: the bundled plugin class ([_processDataForBoxplot],
      [_processRawData], [_calculateBoxplotStats]);
    - [ReactProper]: [src/js/react-proper.js] ([draw], [renderBoxplot],
      [calculateBoxplotStats]).

    What the two variants do with the records is embedded in
    [BoxplotPlugin] (fetching the rows, fitting and drawing the chart, the
    legend, the lookup behind the tooltips and clicks, the lifecycle
    methods of the plugin class) and in [ReactChart] (the layout of the
    boxes in [src/js/react-proper.js]).

    JavaScript numbers are modelled by [JS.number]: NaN, the two infinities
    and the finite doubles, the latter idealised as exact rationals (no
    rounding, no overflow, one zero).  Row objects and the schema are finite
    maps from column names; only own properties are modelled. *)

From Stdlib Require Import ZArith QArith Qround Lia Lqa List Sorted Permutation.
From Stdlib Require Import String Ascii.
From stdpp Require Import gmap strings.
Import ListNotations.

Local Open Scope string_scope.
Local Open Scope list_scope.

(* ================================================================== *)
(** ** ECMAScript values and operators used by the plugin *)
(* ================================================================== *)

Module JS.

(** Number values. *)
Inductive number : Type :=
| NaN
| NegInf
| Fin (q : Q)
| PosInf.

Definition isNaN (v : number) : bool :=
  match v with NaN => true | _ => false end.


Definition neg (a : number) : number :=
  match a with
  | NaN => NaN
  | NegInf => PosInf
  | Fin q => Fin (- q)
  | PosInf => NegInf
  end.

(** [a + b] *)
Definition add (a b : number) : number :=
  match a, b with
  | NaN, _ | _, NaN => NaN
  | PosInf, NegInf | NegInf, PosInf => NaN
  | PosInf, _ | _, PosInf => PosInf
  | NegInf, _ | _, NegInf => NegInf
  | Fin x, Fin y => Fin (x + y)
  end.

(** [a - b] *)
Definition sub (a b : number) : number := add a (neg b).

(** Sign of a non-NaN number: [Lt], [Eq] (zero) or [Gt]. *)
Definition sign (a : number) : comparison :=
  match a with
  | NaN => Eq
  | NegInf => Lt
  | Fin q => (q ?= 0)%Q
  | PosInf => Gt
  end.

Definition signed_inf (s t : comparison) : number :=
  match s, t with
  | Eq, _ | _, Eq => NaN
  | Lt, Lt | Gt, Gt => PosInf
  | _, _ => NegInf
  end.

(** [a * b] *)
Definition mul (a b : number) : number :=
  match a, b with
  | NaN, _ | _, NaN => NaN
  | Fin x, Fin y => Fin (x * y)
  | _, _ => signed_inf (sign a) (sign b)
  end.

(** [a / b]; a zero divisor counts as [+0]. *)
Definition div (a b : number) : number :=
  match a, b with
  | NaN, _ | _, NaN => NaN
  | Fin x, Fin y =>
      if Qeq_bool y 0
      then match (x ?= 0)%Q with Eq => NaN | Lt => NegInf | Gt => PosInf end
      else Fin (x / y)
  | Fin _, _ => Fin 0
  | _, Fin y =>
      signed_inf (sign a) (match (y ?= 0)%Q with Lt => Lt | _ => Gt end)
  | _, _ => NaN
  end.

(** [a < b] *)
Definition lt (a b : number) : bool :=
  match a, b with
  | NaN, _ | _, NaN => false
  | _, NegInf => false
  | NegInf, _ => true
  | PosInf, _ => false
  | Fin _, PosInf => true
  | Fin x, Fin y => negb (Qle_bool y x)
  end.

(** [a <= b] *)
Definition le (a b : number) : bool :=
  match a, b with
  | NaN, _ | _, NaN => false
  | NegInf, _ => true
  | _, PosInf => true
  | _, NegInf => false
  | PosInf, _ => false
  | Fin x, Fin y => Qle_bool x y
  end.

Definition gt (a b : number) : bool := lt b a.
Definition ge (a b : number) : bool := le b a.

Definition of_nat (n : nat) : number := Fin (inject_Z (Z.of_nat n)).

(** A number or [undefined]: what array indexing, [Array.prototype.find]
    and d3's reducers return. *)
Definition maybe := option number.

(** ToNumber on a number-or-undefined. *)
Definition num (o : maybe) : number :=
  match o with Some v => v | None => NaN end.

(** Truthiness of a number-or-undefined: [undefined], NaN and zero are
    falsy. *)
Definition truthy_num (o : maybe) : bool :=
  match o with
  | None | Some NaN => false
  | Some (Fin q) => negb (Qeq_bool q 0)
  | Some _ => true
  end.

(** [a || b] on numbers-or-undefined. *)
Definition or_num (a b : maybe) : maybe := if truthy_num a then a else b.

(** Primitive values held by row objects. *)
Inductive value : Type :=
| undefined
| null
| boolean (b : bool)
| numeric (v : number)
| str (s : string).

(** ToBoolean *)
Definition truthy (v : value) : bool :=
  match v with
  | undefined | null => false
  | boolean b => b
  | numeric n => truthy_num (Some n)
  | str s => negb (String.eqb s "")
  end.

(** [a || b] *)
Definition or (a b : value) : value := if truthy a then a else b.

(** SameValueZero, the key equality of [Map]. *)
Definition sameValueZero (a b : value) : bool :=
  match a, b with
  | undefined, undefined | null, null => true
  | boolean x, boolean y => Bool.eqb x y
  | numeric NaN, numeric NaN
  | numeric NegInf, numeric NegInf
  | numeric PosInf, numeric PosInf => true
  | numeric (Fin x), numeric (Fin y) => Qeq_bool x y
  | str s, str t => String.eqb s t
  | _, _ => false
  end.

(** *** StringToNumber

    The StringNumericLiteral grammar over ASCII: optional white space
    around an optionally signed decimal literal (with fraction and
    exponent), [Infinity], or an unsigned [0x]/[0o]/[0b] integer.  The
    empty string is 0 and anything outside the grammar is NaN. *)

Local Open Scope Z_scope.

Definition is_ws (c : ascii) : bool :=
  let n := nat_of_ascii c in
  (n =? 32)%nat || ((9 <=? n)%nat && (n <=? 13)%nat).

Fixpoint skip_ws (s : list ascii) : list ascii :=
  match s with
  | c :: s' => if is_ws c then skip_ws s' else s
  | [] => []
  end.

Definition trim (s : list ascii) : list ascii :=
  rev (skip_ws (rev (skip_ws s))).

Definition digit_val (base : Z) (c : ascii) : option Z :=
  let n := Z.of_nat (nat_of_ascii c) in
  let d := (if (48 <=? n) && (n <=? 57) then n - 48
            else if (97 <=? n) && (n <=? 102) then n - 87
            else if (65 <=? n) && (n <=? 70) then n - 55
            else -1)%Z in
  if ((0 <=? d) && (d <? base))%Z then Some d else None.

(** A maximal run of digits: its value, its length and the rest. *)
Fixpoint digits (base acc : Z) (k : nat) (s : list ascii)
  : Z * nat * list ascii :=
  match s with
  | c :: s' =>
      match digit_val base c with
      | Some d => digits base (acc * base + d)%Z (S k) s'
      | None => (acc, k, s)
      end
  | [] => (acc, k, [])
  end.

Definition chars (s : string) : list ascii := list_ascii_of_string s.

Definition is_char (c : ascii) (s : string) : bool :=
  existsb (Ascii.eqb c) (chars s).

(** An optional exponent part that must end the literal. *)
Definition exponent (s : list ascii) : option Z :=
  match s with
  | [] => Some 0
  | c :: s' =>
      if is_char c "eE" then
        let '(sgn, s'') :=
          match s' with
          | d :: r => if is_char d "+" then (1%Z, r)
                      else if is_char d "-" then ((-1)%Z, r) else (1%Z, s')
          | [] => (1%Z, s')
          end in
        match digits 10 0 0%nat s'' with
        | (v, S _, []) => Some (sgn * v)%Z
        | _ => None
        end
      else None
  end.

Definition unsignedDecimal (s : list ascii) : number :=
  if String.eqb (string_of_list_ascii s) "Infinity" then PosInf else
  let '(ip, ik, r1) := digits 10 0 0%nat s in
  let '(fp, fk, r2) :=
    match r1 with
    | c :: r => if is_char c "." then digits 10 0 0%nat r else (0%Z, 0%nat, r1)
    | [] => (0%Z, 0%nat, r1)
    end in
  if (ik + fk =? 0)%nat then NaN else
  match exponent r2 with
  | Some e =>
      Fin ((inject_Z ip + inject_Z fp / inject_Z (10 ^ Z.of_nat fk))
           * Qpower (inject_Z 10) e)
  | None => NaN
  end.

Definition radixInteger (base : Z) (s : list ascii) : number :=
  match digits base 0 0%nat s with
  | (v, S _, []) => Fin (inject_Z v)
  | _ => NaN
  end.

Definition StringToNumber (s : string) : number :=
  match trim (chars s) with
  | [] => Fin 0
  | c :: r =>
      if is_char c "+" then unsignedDecimal r
      else if is_char c "-" then neg (unsignedDecimal r)
      else match r with
           | x :: r' =>
               if is_char c "0" && is_char x "xX" then radixInteger 16 r'
               else if is_char c "0" && is_char x "oO" then radixInteger 8 r'
               else if is_char c "0" && is_char x "bB" then radixInteger 2 r'
               else unsignedDecimal (c :: r)
           | [] => unsignedDecimal (c :: r)
           end
  end.

(** ToNumber, the unary [+]. *)
Definition ToNumber (v : value) : number :=
  match v with
  | undefined => NaN
  | null => Fin 0
  | boolean b => if b then Fin 1 else Fin 0
  | numeric n => n
  | str s => StringToNumber s
  end.

(** *** Arrays *)

(** [a[i]]: [undefined] outside the array. *)
Definition at_index {A} (a : list A) (i : Z) : option A :=
  if (i <? 0)%Z then None else nth_error a (Z.to_nat i).

(** [Array.prototype.find] *)
Definition find {A} (f : A -> bool) (a : list A) : option A := List.find f a.

(** [Array.prototype.sort] with a comparator.  The sort is stable: an
    element moves in front of those it compares below and stays behind
    those it compares equal to.  A comparator result of NaN counts as 0. *)
Fixpoint sort_insert (cmp : number -> number -> number) (x : number)
  (l : list number) : list number :=
  match l with
  | [] => [x]
  | y :: l' => if gt (cmp x y) (Fin 0) then y :: sort_insert cmp x l'
               else x :: l
  end.

Definition sort (cmp : number -> number -> number) (a : list number)
  : list number :=
  fold_right (sort_insert cmp) [] a.

(** Property access on a row object. *)
Definition get (d : gmap string value) (k : string) : value :=
  match d !! k with Some v => v | None => undefined end.

End JS.

Abbreviation row := (gmap string JS.value).

#[global] Arguments JS.gt : simpl never.
#[global] Arguments JS.ge : simpl never.

(* ================================================================== *)
(** ** The d3-array functions the plugin calls *)
(* ================================================================== *)

Module D3.
Import JS.

(** [d3.ascending]: [a < b ? -1 : a > b ? 1 : a >= b ? 0 : NaN] *)
Definition ascending (a b : number) : number :=
  if lt a b then Fin (-1)
  else if gt a b then Fin 1
  else if ge a b then Fin 0
  else NaN.

(** Modelled from the spec: [d3.quantile] belongs to the d3-array
    dependency, which is bundled from outside the repository.  The plugin
    only calls it on ascending arrays without NaN, where it is d3-array's
    sorted quantile: the first element for [p <= 0] or fewer than two
    elements, the last for [p >= 1], and otherwise
    [value0 + (value1 - value0) * (i - i0)] with [i = (n - 1) * p],
    [i0 = floor i], [value0 = values[i0]], [value1 = values[i0 + 1]] -- the
    interpolated quantile at continuous rank [p * (n - 1)] of section 4.2.
    An empty array gives [undefined]. *)
Definition quantile (values : list number) (p : Q) : maybe :=
  let n := Z.of_nat (length values) in
  if (n =? 0)%Z then None
  else if Qle_bool p 0 || (n <? 2)%Z then at_index values 0
  else if Qle_bool 1 p then at_index values (n - 1)
  else
    let i := (inject_Z (n - 1) * p)%Q in
    let i0 := Qfloor i in
    let value0 := num (at_index values i0) in
    let value1 := num (at_index values (i0 + 1)) in
    Some (add value0 (mul (sub value1 value0) (Fin (i - inject_Z i0)))).

(** Modelled from the spec: [d3.mean], also from d3-array: the sum of the
    elements that are numbers ([value >= value], so NaN is skipped)
    divided by their count, [undefined] when there is none -- the
    arithmetic mean of section 4.2. *)
Definition mean (values : list number) : maybe :=
  let valid := List.filter (fun v => ge v v) values in
  let count := length valid in
  let sum := fold_left add valid (Fin 0) in
  if (count =? 0)%nat then None else Some (div sum (of_nat count)).

Section Group.
Context {A : Type}.

(** One step of the grouping loop: [groups.get(key)] then either
    [group.push(value)] or [groups.set(key, [value])], the latter
    appending at the end of the map's insertion order. *)
Fixpoint group_add (key : value) (d : A) (groups : list (value * list A))
  : list (value * list A) :=
  match groups with
  | [] => [(key, [d])]
  | (k, g) :: groups' =>
      if sameValueZero k key then (k, g ++ [d]) :: groups'
      else (k, g) :: group_add key d groups'
  end.

(** Modelled from the spec: [d3.group(data, key)], from d3-array: a
    [Map] from each key to the array of the elements having it, in
    the order in which the keys first occur (the partition-discovery
    order of section 4.2).  The map is an association list in
    insertion order. *)
Definition group (data : list A) (key : A -> value)
  : list (value * list A) :=
  fold_left (fun groups d => group_add (key d) d groups) data [].
End Group.

End D3.

(** [array.forEach((x, i) => ...)] where the callback pushes onto a result
    array: the pushes of every call, in order. *)
Fixpoint forEach_from {A B} (i : nat) (f : A -> nat -> list B) (a : list A)
  : list B :=
  match a with
  | [] => []
  | x :: a' => f x i ++ forEach_from (S i) f a'
  end.

Definition forEach {A B} (a : list A) (f : A -> nat -> list B) : list B :=
  forEach_from 0 f a.

(** [schema[col] === tag] *)
Definition type_is (schema : gmap string string) (col tag : string) : bool :=
  match schema !! col with
  | Some t => String.eqb t tag
  | None => false
  end.

(** The view configuration: both fields may be absent. *)
Record Config := {
  columns : option (list string);
  group_by : option (list string)
}.

(** [if (groupByColumn)]: [null] and the empty string are falsy. *)
Definition truthy_column (groupByColumn : option string) : bool :=
  match groupByColumn with
  | Some g => negb (String.eqb g "")
  | None => false
  end.

(* ================================================================== *)
(** ** The plugin class *)
(* ================================================================== *)

Module Plugin.
Import JS.

Record BoxplotStats := {
  min : maybe; max : maybe; q1 : maybe; median : maybe; q3 : maybe;
  mean : maybe; outliers : list number; count : nat
}.

Record BoxplotRecord := {
  label : value;
  metric : string;
  metricIndex : nat;
  groupKey : value;
  values : list number;
  stats : option BoxplotStats
}.

(** [_calculateBoxplotStats(values)]; [null] is [None]. *)
Definition _calculateBoxplotStats (values : list number)
  : option BoxplotStats :=
  if (length values =? 0)%nat then None else
  let sortedValues := sort D3.ascending values in
  let n := length sortedValues in
  let q1 := D3.quantile sortedValues 0.25 in
  let median := D3.quantile sortedValues 0.5 in
  let q3 := D3.quantile sortedValues 0.75 in
  let mean := D3.mean sortedValues in
  let iqr := sub (num q3) (num q1) in
  let lowerFence := sub (num q1) (mul (Fin 1.5) iqr) in
  let upperFence := add (num q3) (mul (Fin 1.5) iqr) in
  let min := or_num (find (fun v => ge v lowerFence) sortedValues)
                    (at_index sortedValues 0) in
  let max := or_num (find (fun v => le v upperFence) (rev sortedValues))
                    (at_index sortedValues (Z.of_nat n - 1)) in
  let outliers :=
    List.filter (fun v => lt v lowerFence || gt v upperFence) sortedValues in
  Some {| min := min; max := max; q1 := q1; median := median; q3 := q3;
          mean := mean; outliers := outliers; count := n |}.

(** The [configColumns.forEach] loop that fills [numericColumns] and
    [categoricalColumns]. *)
Definition classify (schema : gmap string string) (configColumns : list string)
  : list string * list string :=
  fold_left
    (fun '(numericColumns, categoricalColumns) col =>
       if type_is schema col "float" || type_is schema col "integer"
       then (numericColumns ++ [col], categoricalColumns)
       else if type_is schema col "string"
       then (numericColumns, categoricalColumns ++ [col])
       else (numericColumns, categoricalColumns))
    configColumns ([], []).

(** The grouping strategies: the resolved [groupByColumn] and whether
    [console.warn] reported several categorical columns. *)
Definition resolveGroupBy (config : Config) (categoricalColumns : list string)
  : option string * bool :=
  let group_by := match group_by config with Some g => g | None => [] end in
  if (0 <? length group_by)%nat then (nth_error group_by 0, false)
  else if (length categoricalColumns =? 1)%nat
  then (nth_error categoricalColumns 0, false)
  else if (1 <? length categoricalColumns)%nat
  then (nth_error categoricalColumns 0, true)
  else (None, false).

(** [rows.map(d => +d[metricCol]).filter(...).sort(d3.ascending)].  The
    filter is [!isNaN(v) && v !== null && v !== undefined]; its last two
    tests hold of every number. *)
Definition cellValues (rows : list row) (metricCol : string) : list number :=
  sort D3.ascending
    (List.filter (fun v => negb (isNaN v))
       (map (fun d => ToNumber (get d metricCol)) rows)).

Definition _processRawData (data : list row) (config : Config)
  (schema : gmap string string) : list BoxplotRecord :=
  let configColumns := match columns config with Some c => c | None => [] end in
  let '(numericColumns, categoricalColumns) := classify schema configColumns in
  if (length numericColumns =? 0)%nat then [] else
  let groupByColumn := fst (resolveGroupBy config categoricalColumns) in
  if truthy_column groupByColumn then
    let g := match groupByColumn with Some g => g | None => "" end in
    let groups := D3.group data (fun d => or (get d g) (str "Unknown")) in
    flat_map
      (fun '(groupKey, groupData) =>
         forEach numericColumns (fun metricCol metricIndex =>
           let values := cellValues groupData metricCol in
           if (0 <? length values)%nat
           then [ {| label := groupKey; metric := metricCol;
                     metricIndex := metricIndex; groupKey := groupKey;
                     values := values;
                     stats := _calculateBoxplotStats values |} ]
           else []))
      groups
  else
    forEach numericColumns (fun metricCol metricIndex =>
      let values := cellValues data metricCol in
      if (0 <? length values)%nat
      then [ {| label := str metricCol; metric := metricCol;
                metricIndex := metricIndex; groupKey := str metricCol;
                values := values;
                stats := _calculateBoxplotStats values |} ]
      else []).

(** [_processDataForBoxplot(data, config, schema)] *)
Definition _processDataForBoxplot (data : list row) (config : Config)
  (schema : gmap string string) : list BoxplotRecord :=
  if (length data =? 0)%nat then [] else _processRawData data config schema.

End Plugin.

(* ================================================================== *)
(** ** src/js/react-proper.js *)
(* ================================================================== *)

Module ReactProper.
Import JS.

Record BoxplotStats := {
  count : nat; min : maybe; q1 : maybe; median : maybe; q3 : maybe;
  max : maybe; mean : maybe; outliers : list number
}.

Record BoxplotRecord := {
  group : value;
  metric : string;
  values : list number;
  stats : BoxplotStats
}.

(** [calculateBoxplotStats(values)] *)
Definition calculateBoxplotStats (values : list number) : BoxplotStats :=
  let sorted := sort D3.ascending values in
  let n := length sorted in
  let q1 := D3.quantile sorted 0.25 in
  let median := D3.quantile sorted 0.5 in
  let q3 := D3.quantile sorted 0.75 in
  let iqr := sub (num q3) (num q1) in
  let lowerFence := sub (num q1) (mul (Fin 1.5) iqr) in
  let upperFence := add (num q3) (mul (Fin 1.5) iqr) in
  let outliers :=
    List.filter (fun v => lt v lowerFence || gt v upperFence) sorted in
  let nonOutliers :=
    List.filter (fun v => ge v lowerFence && le v upperFence) sorted in
  let min := if (0 <? length nonOutliers)%nat
             then at_index nonOutliers 0 else at_index sorted 0 in
  let max := if (0 <? length nonOutliers)%nat
             then at_index nonOutliers (Z.of_nat (length nonOutliers) - 1)
             else at_index sorted (Z.of_nat (length sorted) - 1) in
  let mean := D3.mean sorted in
  {| count := n; min := min; q1 := q1; median := median; q3 := q3;
     max := max; mean := mean; outliers := outliers |}.

(** [columns.filter(col => columnTypes[col] === 'string' ||
    columnTypes[col] === 'date')] *)
Definition categoricalColumns (schema : gmap string string)
  (columns : list string) : list string :=
  List.filter (fun col => type_is schema col "string" || type_is schema col "date")
    columns.

Definition numericColumns (schema : gmap string string)
  (columns : list string) : list string :=
  List.filter (fun col => type_is schema col "integer" || type_is schema col "float")
    columns.

(** The grouping strategies of [draw]: [groupByColumn] and whether
    [console.warn] ran.  [metricColumns] is [numericColumns] in every
    branch. *)
Definition resolveGroupBy (config : Config) (categoricalColumns : list string)
  : option string * bool :=
  let group_by := match group_by config with Some g => g | None => [] end in
  if (0 <? length group_by)%nat then (nth_error group_by 0, false)
  else if (length categoricalColumns =? 1)%nat
  then (nth_error categoricalColumns 0, false)
  else if (1 <? length categoricalColumns)%nat
  then (nth_error categoricalColumns 0, true)
  else (None, false).

(** [rows.map(d => +d[metric]).filter(v => !isNaN(v)).sort(d3.ascending)] *)
Definition metricValues (rows : list row) (metric : string) : list number :=
  sort D3.ascending
    (List.filter (fun v => negb (isNaN v))
       (map (fun d => ToNumber (get d metric)) rows)).

(** [renderBoxplot(data, groupByColumn, metricColumns)]: the
    [boxplotData] array it builds before drawing. *)
Definition renderBoxplot (data : list row) (groupByColumn : option string)
  (metricColumns : list string) : list BoxplotRecord :=
  if truthy_column groupByColumn then
    let g := match groupByColumn with Some g => g | None => "" end in
    let groupedData := D3.group data (fun d => get d g) in
    flat_map
      (fun '(group, values) =>
         forEach metricColumns (fun metric _ =>
           let metricValues := metricValues values metric in
           if (0 <? length metricValues)%nat
           then [ {| group := group; metric := metric;
                     values := metricValues;
                     stats := calculateBoxplotStats metricValues |} ]
           else []))
      groupedData
  else
    forEach metricColumns (fun metric _ =>
      let metricValues := metricValues data metric in
      if (0 <? length metricValues)%nat
      then [ {| group := str metric; metric := metric;
                values := metricValues;
                stats := calculateBoxplotStats metricValues |} ]
      else []).

(** [draw(view)] up to rendering: the [boxplotData] drawn from the
    view's rows, configuration and schema; [[]] when it returns early
    with a message. *)
Definition draw (rawData : list row) (config : Config)
  (schema : gmap string string) : list BoxplotRecord :=
  if (length rawData =? 0)%nat then [] else
  let columns := match columns config with Some c => c | None => [] end in
  let categoricalColumns := categoricalColumns schema columns in
  let numericColumns := numericColumns schema columns in
  if (length numericColumns =? 0)%nat then [] else
  let groupByColumn := fst (resolveGroupBy config categoricalColumns) in
  let metricColumns := numericColumns in
  renderBoxplot rawData groupByColumn metricColumns.

End ReactProper.

(* ================================================================== *)
(** ** Vocabulary of the statements *)
(* ================================================================== *)

(** [a <= b] as a proposition. *)
Definition leP (a b : JS.number) : Prop := JS.le a b = true.

(** First-occurrence order: every key stays where it first occurs and its
    later occurrences (under SameValueZero) are dropped. *)
Fixpoint discovery (keys : list JS.value) : list JS.value :=
  match keys with
  | [] => []
  | k :: keys' =>
      k :: List.filter (fun k' => negb (JS.sameValueZero k k')) (discovery keys')
  end.

(** The continuous rank [p * (n - 1)] of the quantile at fraction [p] among
    [n] sorted values. *)
Definition rank (n : nat) (p : Q) : Q := (inject_Z (Z.of_nat n - 1) * p)%Q.

(** What [D3.quantile] computes on a non-empty array of finite values, for
    [0 < p < 1], as a rational. *)
Definition quantileQ (v : list Q) (p : Q) : Q :=
  if (length v <? 2)%nat then nth 0 v 0%Q
  else
    let i := rank (length v) p in
    let i0 := Z.to_nat (Qfloor i) in
    (nth i0 v 0 + (nth (S i0) v 0 - nth i0 v 0) * (i - inject_Z (Qfloor i)))%Q.



(** The fences [q1 - 1.5 * iqr] and [q3 + 1.5 * iqr] of finite values. *)
Definition lowerFenceQ (v : list Q) : Q :=
  (quantileQ v 0.25 - 1.5 * (quantileQ v 0.75 - quantileQ v 0.25))%Q.

Definition upperFenceQ (v : list Q) : Q :=
  (quantileQ v 0.75 + 1.5 * (quantileQ v 0.75 - quantileQ v 0.25))%Q.


(** The fences as the code computes them from [q1] and [q3]. *)
Definition lowerFence (q1 q3 : JS.maybe) : JS.number :=
  JS.sub (JS.num q1) (JS.mul (JS.Fin 1.5) (JS.sub (JS.num q3) (JS.num q1))).

Definition upperFence (q1 q3 : JS.maybe) : JS.number :=
  JS.add (JS.num q3) (JS.mul (JS.Fin 1.5) (JS.sub (JS.num q3) (JS.num q1))).

(** [v] lies strictly outside the fences. *)
Definition outside (q1 q3 : JS.maybe) (v : JS.number) : bool :=
  JS.lt v (lowerFence q1 q3) || JS.gt v (upperFence q1 q3).

(** The record pushed for a cell, in each variant. *)
Definition plugin_record (k : JS.value) (m : string) (i : nat)
  (vs : list JS.number) : Plugin.BoxplotRecord :=
  {| Plugin.label := k; Plugin.metric := m; Plugin.metricIndex := i;
     Plugin.groupKey := k; Plugin.values := vs;
     Plugin.stats := Plugin._calculateBoxplotStats vs |}.

Definition react_record (k : JS.value) (m : string) (i : nat)
  (vs : list JS.number) : ReactProper.BoxplotRecord :=
  {| ReactProper.group := k; ReactProper.metric := m; ReactProper.values := vs;
     ReactProper.stats := ReactProper.calculateBoxplotStats vs |}.

(** The key under which a row is partitioned, in each variant. *)
Definition plugin_key (groupByColumn : option string) (d : row) : JS.value :=
  JS.or (JS.get d (match groupByColumn with Some g => g | None => "" end))
        (JS.str "Unknown").

Definition react_key (groupByColumn : option string) (d : row) : JS.value :=
  JS.get d (match groupByColumn with Some g => g | None => "" end).

(** The shape the two aggregation loops share: one cell per partition and
    metric, a cell without values pushing nothing. *)
Section Aggregate.
Context {R : Type} (mk : JS.value -> string -> nat -> list JS.number -> R).

Definition cell (k : JS.value) (rows : list row) (m : string) (i : nat)
  : list R :=
  let vs := Plugin.cellValues rows m in
  if (0 <? length vs)%nat then [mk k m i vs] else [].

Definition aggregate (key : row -> JS.value) (grouped : bool)
  (data : list row) (metricColumns : list string) : list R :=
  if grouped
  then flat_map (fun kg => forEach metricColumns (cell (fst kg) (snd kg)))
         (D3.group data key)
  else forEach metricColumns (fun m i => cell (JS.str m) data m i).
End Aggregate.

(** The configured columns, an absent list counting as empty. *)
Definition configColumns (config : Config) : list string :=
  match columns config with Some c => c | None => [] end.


(** The rows whose key is [k]. *)
Definition partition_of (key : row -> JS.value) (k : JS.value)
  (data : list row) : list row :=
  List.filter (fun d => JS.sameValueZero k (key d)) data.

(** A metric has a retained value among some rows. *)
Definition has_values (rows : list row) (m : string) : bool :=
  (0 <? length (Plugin.cellValues rows m))%nat.

(** *** Sample inputs *)

Definition mkrow (fields : list (string * JS.value)) : row := list_to_map fields.

Definition int (z : Z) : JS.value := JS.numeric (JS.Fin (inject_Z z)).

Definition sample_schema : gmap string string :=
  list_to_map [("region", "string"); ("dept", "string"); ("when", "date");
               ("sales", "float"); ("profit", "float"); ("units", "integer")].

(** The rows of the two-group scenario of section 8. *)
Definition sample_rows : list row :=
  [ mkrow [("region", JS.str "N"); ("dept", JS.str "a"); ("sales", int 10)];
    mkrow [("region", JS.str "N"); ("dept", JS.str "b"); ("sales", int 20)];
    mkrow [("region", JS.str "S"); ("dept", JS.str "a"); ("sales", int 5)] ].


Definition config_single : Config :=
  {| columns := Some ["region"; "sales"]; group_by := None |}.

Definition config_ambiguous : Config :=
  {| columns := Some ["region"; "dept"; "sales"]; group_by := None |}.

Definition config_metrics : Config :=
  {| columns := Some ["sales"; "profit"]; group_by := Some [] |}.

Definition config_date : Config :=
  {| columns := Some ["when"; "sales"]; group_by := None |}.

Definition fin (zs : list Z) : list JS.number :=
  map (fun z => JS.Fin (inject_Z z)) zs.

Definition sample_values : list Q := [1%Q; 2%Q; 4%Q; 8%Q].

(** One metric column holding -100, 0, 0, 0, 0. *)
Definition zero_rows : list row :=
  [ mkrow [("sales", int (-100))]; mkrow [("sales", int 0)];
    mkrow [("sales", int 0)]; mkrow [("sales", int 0)];
    mkrow [("sales", int 0)] ].

(** One metric column holding 0, 100, 100, 100. *)
Definition skewed_rows : list row :=
  [ mkrow [("sales", int 0)]; mkrow [("sales", int 100)];
    mkrow [("sales", int 100)]; mkrow [("sales", int 100)] ].



Definition config_sales : Config :=
  {| columns := Some ["sales"]; group_by := None |}.




(* ================================================================== *)
(** ** Rendering and lifecycle of the two plugins *)
(* ================================================================== *)

(** [[...new Set(a)]] for an array of strings: the first occurrences, in
    order. *)
Fixpoint uniqueStrings (a : list string) : list string :=
  match a with
  | [] => []
  | x :: a' => x :: List.filter (fun y => negb (String.eqb x y)) (uniqueStrings a')
  end.


(** [Math.max(a, b)]: NaN if an argument is NaN. *)
Definition Math_max (a b : JS.number) : JS.number :=
  match a, b with
  | JS.NaN, _ | _, JS.NaN => JS.NaN
  | _, _ => if JS.lt a b then b else a
  end.

(** The outcome of an awaited call: a value or a thrown error with its
    message. *)
Inductive result (A : Type) : Type :=
| Ok (a : A)
| Throw (message : string).

Arguments Ok {A} a.
Arguments Throw {A} message.

Module BoxplotPlugin.
Import JS.

(** *** Fetching the rows *)

(** What the table engine answers during one draw.  A filter is an array
    of values. *)
Record RawConfig := {
  raw_group_by : list string;
  raw_split_by : list string;
  raw_aggregates : list (string * string);
  raw_sort : list (list value);
  raw_filter : list (list value)
}.

Record TempView := {
  temp_to_json : result (list row);
  temp_delete : result unit
}.

Record Table := { view : RawConfig -> result TempView }.

Record ViewConfig := {
  config : Config;
  filter : option (list (list value))
}.

Record View := {
  get_config : result ViewConfig;
  schema : result (gmap string string);
  to_json : result (list row);
  table : option Table;
  _table : option Table
}.

(** The configuration of the temporary raw view. *)
Definition rawConfig (config : ViewConfig) : RawConfig :=
  {| raw_group_by := []; raw_split_by := []; raw_aggregates := [];
     raw_sort := [];
     raw_filter := match filter config with Some f => f | None => [] end |}.

(** The table the plugin reaches: [view.table], else [view._table], else
    [this._view.table], else [this.parentElement.table]. *)
Definition findTable (this_view : option View) (parentElement_table : option Table)
  (view : View) : option Table :=
  match table view with
  | Some t => Some t
  | None =>
      match _table view with
      | Some t => Some t
      | None =>
          match match this_view with Some v => table v | None => None end with
          | Some t => Some t
          | None => parentElement_table
          end
      end
  end.

(** [_getRawDataForBoxplot(view, config)]: the [try] block, and on any
    error the [catch] block, which asks the view again. *)
Definition _getRawDataForBoxplot (this_view : option View)
  (parentElement_table : option Table) (view : View) (config : ViewConfig)
  : result (list row) :=
  let attempt :=
    match findTable this_view parentElement_table view with
    | None => to_json view
    | Some table =>
        match BoxplotPlugin.view table (rawConfig config) with
        | Throw e => Throw e
        | Ok tempView =>
            match temp_to_json tempView with
            | Throw e => Throw e
            | Ok rawData =>
                match temp_delete tempView with
                | Throw e => Throw e
                | Ok _ => Ok rawData
                end
            end
        end
    end in
  match attempt with
  | Ok rawData => Ok rawData
  | Throw _ => to_json view
  end.

(** *** The chart *)

Record LegendItem := { item_y : nat; item_color : string; item_text : string }.

Record Legend := {
  legendX : number;
  legendY : number;
  background_height : nat;
  items : list LegendItem
}.

(** The label of an x-axis group:
    [d.length > 15 ? d.substring(0, 15) + '...' : d]. *)
Definition xLabel (d : string) : string :=
  if (15 <? String.length d)%nat then String.append (substring 0 15 d) "..." else d.

(** One [g.boxplot-group] element: the values its attributes are set
    from, the horizontal geometry, the colour and the statistics drawn. *)
Record Box := {
  data_group : value;
  data_metric : string;
  boxX : Q;
  boxWidth : Q;
  centerX : Q;
  color : string;
  drawn : option Plugin.BoxplotStats
}.

Section Drawing.
(** The scales, which d3 builds: the colour
    [d3.scaleOrdinal(d3.schemeCategory10).domain(allMetrics)] gives a
    metric; where the band of a group starts on the x axis, and
    [xScale.bandwidth()]. *)
Variable scaleOrdinal : list string -> string -> string.
Variable xScale : value -> Q.
Variable bandwidth : Q.

(** [_drawLegend(svg, processedData, settings)]: [None] when the legend
    is skipped. *)
Definition _drawLegend (processedData : list Plugin.BoxplotRecord)
  (width : number) : option Legend :=
  let allMetrics := uniqueStrings (map Plugin.metric processedData) in
  if (length allMetrics <=? 1)%nat then None
  else
    let metricColorScale := scaleOrdinal allMetrics in
    let legendItemHeight := 30%nat in
    Some {| legendX := sub width (Fin 120);
            legendY := Fin 20;
            background_height := (length allMetrics * 30 + 10)%nat;
            items := forEach allMetrics (fun metric i =>
                       [ {| item_y := (i * legendItemHeight)%nat;
                            item_color := metricColorScale metric;
                            item_text := metric |} ]) |}.

(** The boxes of one x-axis group, side by side; [Math.max] is taken of
    finite numbers. *)
Definition groupBoxes (allMetrics : list string) (groupKey : value)
  (groupData : list Plugin.BoxplotRecord) : list Box :=
  let metricColorScale := scaleOrdinal allMetrics in
  let groupBaseX := xScale groupKey in
  let groupWidth := bandwidth in
  let metricsInGroup := inject_Z (Z.of_nat (length groupData)) in
  let boxWidth :=
    (if Qle_bool 20 (groupWidth / metricsInGroup - 5)
     then groupWidth / metricsInGroup - 5 else 20)%Q in
  forEach groupData (fun seriesData metricIndex =>
    let boxX := (groupBaseX
                 + inject_Z (Z.of_nat metricIndex) * groupWidth / metricsInGroup)%Q in
    let centerX := (boxX + boxWidth / 2)%Q in
    [ {| data_group := groupKey;
         data_metric := Plugin.metric seriesData;
         boxX := boxX; boxWidth := boxWidth; centerX := centerX;
         color := metricColorScale (Plugin.metric seriesData);
         drawn := Plugin.stats seriesData |} ]).

(** [_drawBoxplots(svg, processedData, xScale, yScale, colorScale)]: the
    box groups appended, in order. *)
Definition _drawBoxplots (processedData : list Plugin.BoxplotRecord) : list Box :=
  let groupedByX := D3.group processedData Plugin.groupKey in
  let allMetrics := uniqueStrings (map Plugin.metric processedData) in
  flat_map (fun '(groupKey, groupData) => groupBoxes allMetrics groupKey groupData)
    groupedByX.
End Drawing.




(** What [_renderBoxplot] fits the chart to: the size of the [svg], the
    values the y scale is fitted to, the domain of the x scale and the
    records drawn. *)
Record Chart := {
  width : number;
  height : number;
  allValues : list maybe;
  uniqueGroups : list value;
  processedData : list Plugin.BoxplotRecord
}.

(** What [this._container.innerHTML] holds. *)
Inductive Content : Type :=
| Empty
| NoNumericData
| ErrorRendering (message : string)
| Svg (chart : Chart).

(** [processedData.flatMap(d => [d.stats.min, d.stats.max, ...d.stats.outliers])];
    reading [d.stats.min] of a [null] throws. *)
Fixpoint flatMap_stats (processedData : list Plugin.BoxplotRecord)
  : result (list maybe) :=
  match processedData with
  | [] => Ok []
  | d :: rest =>
      match Plugin.stats d with
      | None => Throw "TypeError"
      | Some st =>
          match flatMap_stats rest with
          | Throw e => Throw e
          | Ok vs => Ok ([Plugin.min st; Plugin.max st]
                        ++ map Some (Plugin.outliers st) ++ vs)
          end
      end
  end.

(** [_renderBoxplot(data, config, schema)], given the size of the
    container: what the container holds afterwards. *)
Definition _renderBoxplot (rect_width rect_height : number) (data : list row)
  (config : Config) (schema : gmap string string) : result Content :=
  let width := Math_max (Fin 400) (num (or_num (Some rect_width) (Some (Fin 600)))) in
  let height := Math_max (Fin 300) (num (or_num (Some rect_height) (Some (Fin 400)))) in
  let processedData := Plugin._processDataForBoxplot data config schema in
  if (length processedData =? 0)%nat then Ok NoNumericData
  else
    match flatMap_stats processedData with
    | Throw e => Throw e
    | Ok allValues =>
        let uniqueGroups := discovery (map Plugin.groupKey processedData) in
        Ok (Svg {| width := width; height := height;
                   allValues := allValues;
                   uniqueGroups := uniqueGroups;
                   processedData := processedData |})
    end.

(** *** The lifecycle *)

(** The element: its child [div]s with what each holds, and the fields
    [_container] (the index of a child), [_chart] and [_view]. *)
Record State := {
  children : list Content;
  _container : option nat;
  _chart : option unit;
  _view : option View
}.

(** The constructor. *)
Definition constructor : State :=
  {| children := []; _container := None; _chart := None; _view := None |}.

(** [this._container.innerHTML = content] *)
Definition setInnerHTML (st : State) (content : Content) : State :=
  match _container st with
  | Some i =>
      {| children := <[i := content]> (children st);
         _container := _container st; _chart := _chart st; _view := _view st |}
  | None => st
  end.

(** What the surroundings supply to one draw: the table of the parent
    element, if any, and the size of the container. *)
Record Surroundings := {
  parentElement_table : option Table;
  rect_width : number;
  rect_height : number
}.

(** [draw(view)] *)
Definition draw (st : State) (env : Surroundings) (view : View) : State :=
  let st :=
    match _container st with
    | Some _ => st
    | None =>
        {| children := children st ++ [Empty];
           _container := Some (length (children st));
           _chart := _chart st; _view := _view st |}
    end in
  let attempt :=
    match get_config view with
    | Throw e => Throw e
    | Ok config =>
        match schema view with
        | Throw e => Throw e
        | Ok schema =>
            match _getRawDataForBoxplot (_view st) (parentElement_table env)
                    view config with
            | Throw e => Throw e
            | Ok rawData =>
                _renderBoxplot (rect_width env) (rect_height env) rawData
                  (BoxplotPlugin.config config) schema
            end
        end
    end in
  match attempt with
  | Ok content => setInnerHTML st content
  | Throw message => setInnerHTML st (ErrorRendering message)
  end.

(** [update(view)] *)
Definition update (st : State) (env : Surroundings) (view : View) : State :=
  draw st env view.

(** [clear()] *)
Definition clear (st : State) : State :=
  match _container st with
  | Some _ => setInnerHTML st Empty
  | None => st
  end.

(** [resize()] *)
Definition resize (st : State) (env : Surroundings) : State :=
  match _view st with
  | Some view => draw st env view
  | None => st
  end.

(** [save()] and [restore(config)] leave the element as it is. *)
Definition save (st : State) : State := st.
Definition restore (st : State) (config : ViewConfig) : State := st.

(** [delete()] *)
Definition delete (st : State) : State :=
  let st :=
    match _container st with
    | Some _ =>
        let st := setInnerHTML st Empty in
        {| children := children st; _container := None;
           _chart := _chart st; _view := _view st |}
    | None => st
    end in
  {| children := children st; _container := _container st;
     _chart := None; _view := None |}.

(** A call of a lifecycle method by the host. *)
Inductive Call : Type :=
| Draw (env : Surroundings) (view : View)
| Update (env : Surroundings) (view : View)
| Clear
| Resize (env : Surroundings)
| Save
| Restore (config : ViewConfig)
| Delete.

Definition call (st : State) (c : Call) : State :=
  match c with
  | Draw env view => draw st env view
  | Update env view => update st env view
  | Clear => clear st
  | Resize env => resize st env
  | Save => save st
  | Restore config => restore st config
  | Delete => delete st
  end.

(** What every method keeps: no view and no chart is held, the container
    is the last child, and the other children are empty. *)
Definition settled (st : State) : Prop :=
  _view st = None /\ _chart st = None
  /\ match _container st with
     | Some i => S i = length (children st)
     | None => True
     end
  /\ forall j c, children st !! j = Some c -> _container st <> Some j -> c = Empty.

End BoxplotPlugin.

Module ReactChart.
Import JS.

(** One box of [renderBoxplot]: its group and metric, the left edge
    [xPos] and the width. *)
Record Box := {
  box_group : value;
  box_metric : string;
  xPos : Q;
  boxWidth : Q
}.

Section Layout.
Variable xScale : value -> Q.
Variable bandwidth : Q.

(** The boxes of one group, side by side; [Math.min] is taken of finite
    numbers. *)
Definition groupBoxes (metrics : list string) (group : value)
  (metricData : list ReactProper.BoxplotRecord) : list Box :=
  let n := inject_Z (Z.of_nat (length metrics)) in
  let boxWidth := (if Qle_bool 50 (bandwidth / n) then 50 else bandwidth / n)%Q in
  forEach metricData (fun d i =>
    let xPos := (xScale group + inject_Z (Z.of_nat i) * boxWidth
                 + (bandwidth - n * boxWidth) / 2)%Q in
    [ {| box_group := group; box_metric := ReactProper.metric d;
         xPos := xPos; boxWidth := boxWidth |} ]).

(** The boxes [renderBoxplot] draws for [boxplotData], group by group. *)
Definition boxes (boxplotData : list ReactProper.BoxplotRecord) : list Box :=
  let metrics := uniqueStrings (map ReactProper.metric boxplotData) in
  let groupedBoxplotData := D3.group boxplotData ReactProper.group in
  flat_map (fun '(group, metricData) => groupBoxes metrics group metricData)
    groupedBoxplotData.
End Layout.

End ReactChart.

(** *** Sample views *)

(** A view over the two-group rows whose table cannot be reached. *)
Definition sample_view : BoxplotPlugin.View :=
  {| BoxplotPlugin.get_config :=
       Ok {| BoxplotPlugin.config := config_single; BoxplotPlugin.filter := None |};
     BoxplotPlugin.schema := Ok sample_schema;
     BoxplotPlugin.to_json := Ok sample_rows;
     BoxplotPlugin.table := None;
     BoxplotPlugin._table := None |}.

(** A table whose temporary view hands out its rows and then fails to be
    deleted. *)
Definition leaky_table : BoxplotPlugin.Table :=
  {| BoxplotPlugin.view := fun _ =>
       Ok {| BoxplotPlugin.temp_to_json := Ok skewed_rows;
             BoxplotPlugin.temp_delete := Throw "View already deleted" |} |}.

Definition sample_surroundings : BoxplotPlugin.Surroundings :=
  {| BoxplotPlugin.parentElement_table := Some leaky_table;
     BoxplotPlugin.rect_width := JS.Fin 0;
     BoxplotPlugin.rect_height := JS.Fin 0 |}.

(* ================================================================== *)
(** ** Order and arithmetic of number values *)
(* ================================================================== *)

Section NumberFacts.
Import JS.

Lemma le_Fin x y : le (Fin x) (Fin y) = true <-> (x <= y)%Q.
Proof. simpl. apply Qle_bool_iff. Qed.

Lemma lt_Fin x y : lt (Fin x) (Fin y) = true <-> (x < y)%Q.
Proof.
  simpl. rewrite Bool.negb_true_iff, <- Bool.not_true_iff_false, Qle_bool_iff.
  split; [apply Qnot_le_lt | apply Qlt_not_le].
Qed.

Lemma lt_Fin_false x y : lt (Fin x) (Fin y) = false <-> (y <= x)%Q.
Proof.
  simpl. rewrite Bool.negb_false_iff. apply Qle_bool_iff.
Qed.

Lemma lt_negb_le a b :
  isNaN a = false -> isNaN b = false -> lt a b = negb (le b a).
Proof. destruct a, b; simpl; intros; try reflexivity; discriminate. Qed.

Lemma le_not_NaN a b : le a b = true -> isNaN a = false /\ isNaN b = false.
Proof. destruct a, b; simpl; intros; try discriminate; auto. Qed.

Lemma le_lt_false a b : le a b = true -> lt b a = false.
Proof.
  intros H. destruct (le_not_NaN _ _ H) as [Ha Hb].
  rewrite lt_negb_le, H by assumption. reflexivity.
Qed.

Lemma le_refl a : isNaN a = false -> le a a = true.
Proof.
  destruct a; simpl; intros; try reflexivity; try discriminate.
  apply Qle_bool_iff, Qle_refl.
Qed.

Lemma le_trans a b c : le a b = true -> le b c = true -> le a c = true.
Proof.
  destruct a, b, c; simpl; intros; try reflexivity; try discriminate.
  rewrite Qle_bool_iff in *. eapply Qle_trans; eassumption.
Qed.

Lemma le_total a b :
  isNaN a = false -> isNaN b = false -> le a b = true \/ le b a = true.
Proof.
  destruct a, b; simpl; intros; auto; try discriminate.
  rewrite !Qle_bool_iff. destruct (Qlt_le_dec q q0); [left | right]; auto.
  apply Qlt_le_weak; assumption.
Qed.

Lemma lt_asym a b : lt a b = true -> lt b a = false.
Proof.
  destruct a, b; simpl; intros; try reflexivity; try discriminate.
  rewrite Bool.negb_true_iff in H. rewrite Bool.negb_false_iff.
  apply Qle_bool_iff. apply Qlt_le_weak, Qnot_le_lt.
  intros Hc. apply Qle_bool_iff in Hc. congruence.
Qed.

(** The comparator is positive exactly when its first argument is the
    larger one. *)
Lemma ascending_pos a b : gt (D3.ascending a b) (Fin 0) = gt a b.
Proof.
  unfold D3.ascending, gt.
  destruct (lt a b) eqn:Hab.
  - rewrite (lt_asym _ _ Hab). reflexivity.
  - destruct (lt b a) eqn:Hba; [reflexivity |].
    destruct (ge a b); reflexivity.
Qed.




End NumberFacts.

(* ================================================================== *)
(** ** [Array.prototype.sort] with [d3.ascending] *)
(* ================================================================== *)

Section SortFacts.
Import JS.

Lemma sort_insert_perm cmp x l : Permutation (sort_insert cmp x l) (x :: l).
Proof.
  induction l as [| y l IH]; simpl.
  - apply Permutation_refl.
  - destruct (gt (cmp x y) (Fin 0)).
    + eapply perm_trans; [apply perm_skip, IH | apply perm_swap].
    + apply Permutation_refl.
Qed.

Lemma sort_perm cmp l : Permutation (sort cmp l) l.
Proof.
  induction l as [| x l IH]; simpl.
  - apply Permutation_refl.
  - eapply perm_trans; [apply sort_insert_perm | apply perm_skip, IH].
Qed.

Lemma sort_length cmp l : length (sort cmp l) = length l.
Proof. apply Permutation_length, sort_perm. Qed.

Lemma sort_insert_sorted x l :
  isNaN x = false -> Forall (fun v => isNaN v = false) l ->
  StronglySorted leP l -> StronglySorted leP (sort_insert D3.ascending x l).
Proof.
  intros Hx Hl Hs. induction Hs as [| y l Hs IH Hy]; simpl.
  - repeat constructor.
  - inversion Hl as [| ? ? Hny Hl']; subst.
    rewrite ascending_pos. unfold gt.
    destruct (lt y x) eqn:Hyx.
    + constructor; [apply IH; assumption |].
      assert (Hle : leP y x).
      { unfold leP. rewrite lt_negb_le in Hyx by assumption.
        destruct (le_total x y Hx Hny) as [H | H]; [| exact H].
        rewrite H in Hyx. discriminate. }
      eapply Permutation_Forall;
        [apply Permutation_sym, sort_insert_perm |].
      constructor; assumption.
    + assert (Hle : leP x y).
      { unfold leP. rewrite lt_negb_le in Hyx by assumption.
        destruct (le x y); [reflexivity | discriminate]. }
      constructor; [constructor; assumption |].
      constructor; [exact Hle |].
      eapply List.Forall_impl; [| exact Hy].
      intros z Hz. eapply le_trans; eassumption.
Qed.

Lemma sort_sorted l :
  Forall (fun v => isNaN v = false) l -> StronglySorted leP (sort D3.ascending l).
Proof.
  induction 1 as [| x l Hx Hl IH]; simpl.
  - constructor.
  - apply sort_insert_sorted; [assumption | | assumption].
    eapply Permutation_Forall; [apply Permutation_sym, sort_perm | assumption].
Qed.

(** Sorting an array that is already ascending leaves it unchanged. *)
Lemma sort_sorted_id l : StronglySorted leP l -> sort D3.ascending l = l.
Proof.
  induction 1 as [| x l Hs IH Hx]; simpl; [reflexivity |].
  rewrite IH. destruct l as [| y l]; [reflexivity |]. simpl.
  rewrite ascending_pos. unfold gt.
  inversion Hx; subst. rewrite le_lt_false by assumption. reflexivity.
Qed.


End SortFacts.

(* ================================================================== *)
(** ** [d3.group] *)
(* ================================================================== *)

Section GroupFacts.
Import JS.

Lemma sameValueZero_refl a : sameValueZero a a = true.
Proof.
  destruct a as [| | b | [| | q |] | s]; simpl; try reflexivity.
  - destruct b; reflexivity.
  - apply Qeq_bool_iff. reflexivity.
  - apply String.eqb_refl.
Qed.

Lemma sameValueZero_sym a b : sameValueZero a b = sameValueZero b a.
Proof.
  destruct a as [| | x | [| | x |] | x], b as [| | y | [| | y |] | y];
    simpl; try reflexivity.
  - destruct x, y; reflexivity.
  - destruct (Qeq_bool x y) eqn:E, (Qeq_bool y x) eqn:E'; try reflexivity.
    + apply Qeq_bool_iff in E. symmetry in E. apply Qeq_bool_iff in E.
      congruence.
    + apply Qeq_bool_iff in E'. symmetry in E'. apply Qeq_bool_iff in E'.
      congruence.
  - apply String.eqb_sym.
Qed.

Lemma sameValueZero_trans a b c :
  sameValueZero a b = true -> sameValueZero b c = true ->
  sameValueZero a c = true.
Proof.
  destruct a as [| | x | [| | x |] | x], b as [| | y | [| | y |] | y],
           c as [| | z | [| | z |] | z];
    simpl; try reflexivity; try discriminate.
  - destruct x, y, z; simpl; try reflexivity; discriminate.
  - rewrite !Qeq_bool_iff. intros H1 H2. rewrite H1. exact H2.
  - rewrite !String.eqb_eq. congruence.
Qed.

Context {A : Type} (key : A -> value).

Let step := fun (groups : list (value * list A)) (d : A) =>
              D3.group_add (key d) d groups.
Let same (k : value) := fun d : A => sameValueZero k (key d).
Let other (k : value) := fun d : A => negb (sameValueZero k (key d)).

Lemma group_fold_cons data k g groups :
  fold_left step data ((k, g) :: groups)
  = (k, g ++ List.filter (same k) data)
      :: fold_left step (List.filter (other k) data) groups.
Proof.
  revert g groups. induction data as [| d data IH]; intros g groups.
  - simpl. rewrite app_nil_r. reflexivity.
  - simpl. unfold step at 2, same at 1, other at 1. simpl.
    destruct (sameValueZero k (key d)); simpl.
    + rewrite IH, <- app_assoc. reflexivity.
    + rewrite IH. reflexivity.
Qed.

(** The head row opens the first partition, which collects every row
    with the same key; the rows with other keys are grouped after it. *)
Lemma group_cons d data :
  D3.group (d :: data) key
  = (key d, d :: List.filter (same (key d)) data)
      :: D3.group (List.filter (other (key d)) data) key.
Proof. unfold D3.group. simpl. apply group_fold_cons. Qed.

Lemma filter_length_le (f : A -> bool) l : length (List.filter f l) <= length l.
Proof.
  induction l as [| x l IH]; simpl; [lia |]. destruct (f x); simpl; lia.
Qed.

(** Induction along [group_cons]. *)
Lemma group_ind (P : list A -> list (value * list A) -> Prop) :
  P [] [] ->
  (forall d data,
      P (List.filter (other (key d)) data)
        (D3.group (List.filter (other (key d)) data) key) ->
      P (d :: data)
        ((key d, d :: List.filter (same (key d)) data)
           :: D3.group (List.filter (other (key d)) data) key)) ->
  forall data, P data (D3.group data key).
Proof.
  intros Hnil Hcons data.
  remember (length data) as m eqn:Hm.
  assert (Hle : length data <= m) by lia. clear Hm.
  revert data Hle. induction m as [| m IH]; intros [| d data] Hle;
    simpl in Hle; try exact Hnil; try lia.
  rewrite group_cons. apply Hcons. apply IH.
  pose proof (filter_length_le (other (key d)) data). lia.
Qed.

Lemma group_perm data :
  Permutation (concat (map snd (D3.group data key))) data.
Proof.
  apply (group_ind (fun data groups => Permutation (concat (map snd groups)) data)).
  - apply Permutation_refl.
  - intros d l IH. simpl. apply perm_skip.
    eapply perm_trans; [apply Permutation_app_head, IH |].
    clear IH. induction l as [| x l IHl]; simpl; [apply Permutation_refl |].
    unfold same at 1, other at 1.
    destruct (sameValueZero (key d) (key x)); simpl.
    + apply perm_skip, IHl.
    + eapply perm_trans; [apply Permutation_sym, Permutation_middle |].
      apply perm_skip, IHl.
Qed.

Lemma filter_filter_sub (p q : A -> bool) l :
  (forall x, In x l -> p x = true -> q x = true) ->
  List.filter p (List.filter q l) = List.filter p l.
Proof.
  induction l as [| x l IH]; intros H; simpl; [reflexivity |].
  destruct (q x) eqn:Hq; simpl.
  - rewrite IH by (intros; apply H; simpl; auto). reflexivity.
  - destruct (p x) eqn:Hp.
    + rewrite H in Hq by (simpl; auto). discriminate.
    + apply IH. intros; apply H; simpl; auto.
Qed.

(** Every partition holds exactly the rows having its key, in row
    order, and its key is the key of one of the rows. *)
Lemma group_members data k g :
  In (k, g) (D3.group data key) ->
  g = List.filter (same k) data /\ exists d, In d data /\ k = key d.
Proof.
  revert k g.
  apply (group_ind (fun data groups => forall k g, In (k, g) groups ->
    g = List.filter (same k) data /\ exists d, In d data /\ k = key d)).
  - intros k g [].
  - intros d l IH k g [Heq | Hin].
    + inversion Heq; subst. split.
      * simpl. unfold same at 2. rewrite sameValueZero_refl. reflexivity.
      * exists d. simpl. auto.
    + destruct (IH _ _ Hin) as [Hg [d' [Hd' Hk]]].
      apply filter_In in Hd'. destruct Hd' as [Hd' Hne].
      unfold other in Hne. apply Bool.negb_true_iff in Hne.
      split.
      * assert (Hkd : same k d = false).
        { unfold same. rewrite Hk, sameValueZero_sym. exact Hne. }
        rewrite Hg. simpl. rewrite Hkd.
        apply filter_filter_sub.
        intros x _ Hx. unfold same in Hx. unfold other.
        apply Bool.negb_true_iff.
        destruct (sameValueZero (key d) (key x)) eqn:E; [| reflexivity].
        rewrite <- Hne. symmetry.
        eapply sameValueZero_trans; [exact E |].
        rewrite sameValueZero_sym, <- Hk. exact Hx.
      * exists d'. simpl. auto.
Qed.

Lemma discovery_filter (q : value -> bool) keys :
  (forall a b, sameValueZero a b = true -> q a = q b) ->
  discovery (List.filter q keys) = List.filter q (discovery keys).
Proof.
  intros Hq. induction keys as [| k keys IH]; simpl; [reflexivity |].
  destruct (q k) eqn:Hk; simpl.
  - rewrite IH. f_equal.
    generalize (discovery keys). intros l.
    induction l as [| x l IHl]; simpl; [reflexivity |].
    destruct (q x) eqn:E1, (negb (sameValueZero k x)) eqn:E2; simpl;
      rewrite ?E1, ?E2, ?IHl; reflexivity.
  - rewrite IH. generalize (discovery keys). intros l.
    induction l as [| x l IHl]; simpl; [reflexivity |].
    destruct (sameValueZero k x) eqn:E; simpl.
    + rewrite <- (Hq _ _ E), Hk. exact IHl.
    + rewrite IHl. reflexivity.
Qed.

(** The partitions come in the order in which their keys first occur. *)
Lemma group_keys data :
  map fst (D3.group data key) = discovery (map key data).
Proof.
  apply (group_ind (fun data groups => map fst groups = discovery (map key data))).
  - reflexivity.
  - intros d l IH. simpl. f_equal. rewrite IH.
    rewrite <- discovery_filter.
    + f_equal. clear IH. induction l as [| x l IHl]; simpl; [reflexivity |].
      unfold other at 1. destruct (negb (sameValueZero (key d) (key x)));
        simpl; rewrite IHl; reflexivity.
    + intros a b Hab. f_equal.
      destruct (sameValueZero (key d) a) eqn:E.
      * symmetry. eapply sameValueZero_trans; eassumption.
      * destruct (sameValueZero (key d) b) eqn:E'; [| reflexivity].
        rewrite <- E. eapply sameValueZero_trans; [exact E' |].
        rewrite sameValueZero_sym. exact Hab.
Qed.

(** No two partitions share a key. *)
Lemma discovery_distinct keys :
  ForallOrdPairs (fun a b => sameValueZero a b = false) (discovery keys).
Proof.
  induction keys as [| k keys IH]; simpl; constructor.
  - apply List.Forall_forall. intros x Hx. apply filter_In in Hx.
    destruct Hx as [_ Hx]. apply Bool.negb_true_iff in Hx. exact Hx.
  - clear -IH. induction IH as [| x l Hx Hl IHl]; simpl; [constructor |].
    destruct (negb (sameValueZero k x)); [| exact IHl].
    constructor; [| exact IHl].
    apply List.Forall_forall. intros y Hy. apply filter_In in Hy.
    rewrite List.Forall_forall in Hx. apply Hx. tauto.
Qed.


End GroupFacts.

(* ================================================================== *)
(** ** [d3.quantile] and [d3.mean] on finite values *)
(* ================================================================== *)

Section QuantileFacts.
Import JS.
Local Open Scope Q_scope.

Lemma nth_sorted (qs : list Q) :
  StronglySorted Qle qs ->
  forall i j, (i <= j < length qs)%nat -> nth i qs 0 <= nth j qs 0.
Proof.
  induction 1 as [| a l Hs IH Ha]; intros i j Hij; simpl in Hij; [lia |].
  destruct i, j; simpl; try lia.
  - apply Qle_refl.
  - rewrite List.Forall_forall in Ha. apply Ha, nth_In. lia.
  - apply IH. lia.
Qed.

Lemma rank_pos n p : (2 <= n)%nat -> 0 < p -> 0 < rank n p.
Proof.
  intros Hn Hp. unfold rank.
  assert (H1 : 1 <= inject_Z (Z.of_nat n - 1)).
  { change 1 with (inject_Z 1). rewrite <- Zle_Qle. lia. }
  nra.
Qed.

Lemma rank_lt n p :
  (2 <= n)%nat -> p < 1 -> rank n p < inject_Z (Z.of_nat n - 1).
Proof.
  intros Hn Hp. unfold rank.
  assert (H1 : 1 <= inject_Z (Z.of_nat n - 1)).
  { change 1 with (inject_Z 1). rewrite <- Zle_Qle. lia. }
  nra.
Qed.

Lemma rank_floor_bounds n p :
  (2 <= n)%nat -> 0 < p -> p < 1 ->
  (0 <= Qfloor (rank n p) <= Z.of_nat n - 2)%Z.
Proof.
  intros Hn Hp0 Hp1. split.
  - change 0%Z with (Qfloor 0). apply Qfloor_resp_le, Qlt_le_weak, rank_pos;
      assumption.
  - assert (H : (Qfloor (rank n p) < Z.of_nat n - 1)%Z); [| lia].
    rewrite Zlt_Qlt. eapply Qle_lt_trans; [apply Qfloor_le |].
    apply rank_lt; assumption.
Qed.

Lemma frac_bounds x : 0 <= x - inject_Z (Qfloor x) /\ x - inject_Z (Qfloor x) < 1.
Proof.
  pose proof (Qfloor_le x) as H1. pose proof (Qlt_floor x) as H2.
  rewrite inject_Z_plus in H2. change (inject_Z 1) with 1 in H2.
  split; lra.
Qed.

Lemma rank_mono n p p' : (1 <= n)%nat -> p <= p' -> rank n p <= rank n p'.
Proof.
  intros Hn Hp. unfold rank.
  assert (H1 : 0 <= inject_Z (Z.of_nat n - 1)).
  { change 0 with (inject_Z 0). rewrite <- Zle_Qle. lia. }
  nra.
Qed.

(** An interpolated quantile lies between its two neighbours. *)
Lemma quantileQ_between qs p :
  StronglySorted Qle qs -> (2 <= length qs)%nat -> 0 < p -> p < 1 ->
  let i0 := Z.to_nat (Qfloor (rank (length qs) p)) in
  nth i0 qs 0 <= quantileQ qs p /\ quantileQ qs p <= nth (S i0) qs 0.
Proof.
  intros Hs Hn Hp0 Hp1 i0. unfold quantileQ.
  destruct (Nat.ltb_spec (length qs) 2) as [Hlt | _]; [lia |].
  fold i0.
  pose proof (rank_floor_bounds _ _ Hn Hp0 Hp1) as Hb.
  assert (Hab : nth i0 qs 0 <= nth (S i0) qs 0).
  { apply nth_sorted; [assumption |]. unfold i0. lia. }
  destruct (frac_bounds (rank (length qs) p)) as [Hf0 Hf1].
  split; nra.
Qed.

(** When the rank is a whole number the quantile is the element there. *)
Lemma quantileQ_exact qs p :
  (2 <= length qs)%nat ->
  rank (length qs) p == inject_Z (Qfloor (rank (length qs) p)) ->
  quantileQ qs p == nth (Z.to_nat (Qfloor (rank (length qs) p))) qs 0.
Proof.
  intros Hn Hr. unfold quantileQ.
  destruct (Nat.ltb_spec (length qs) 2) as [Hlt | _]; [lia |].
  cbv zeta.
  assert (H0 : rank (length qs) p - inject_Z (Qfloor (rank (length qs) p)) == 0)
    by lra.
  rewrite H0. ring.
Qed.

(** The quantile grows with the fraction. *)
Lemma quantileQ_mono qs p p' :
  StronglySorted Qle qs -> qs <> [] ->
  0 < p -> p <= p' -> p' < 1 -> quantileQ qs p <= quantileQ qs p'.
Proof.
  intros Hs Hne Hp0 Hpp Hp1.
  destruct (Nat.ltb_spec (length qs) 2) as [Hlt | Hn].
  { unfold quantileQ. apply Nat.ltb_lt in Hlt. rewrite Hlt. apply Qle_refl. }
  assert (Hp1' : p < 1) by lra. assert (Hp0' : 0 < p') by lra.
  pose proof (rank_floor_bounds _ _ Hn Hp0 Hp1') as Hb.
  pose proof (rank_floor_bounds _ _ Hn Hp0' Hp1) as Hb'.
  assert (Hr : rank (length qs) p <= rank (length qs) p')
    by (apply rank_mono; [lia | assumption]).
  pose proof (Qfloor_resp_le _ _ Hr) as Hfl.
  destruct (Z.eq_dec (Qfloor (rank (length qs) p)) (Qfloor (rank (length qs) p')))
    as [Heq | Hneq].
  - unfold quantileQ. apply Nat.ltb_ge in Hn. rewrite Hn. rewrite <- Heq.
    set (i0 := Z.to_nat (Qfloor (rank (length qs) p))).
    assert (Hab : nth i0 qs 0 <= nth (S i0) qs 0).
    { apply nth_sorted; [assumption |]. unfold i0. apply Nat.ltb_ge in Hn. lia. }
    nra.
  - destruct (quantileQ_between qs p Hs Hn Hp0 Hp1') as [_ H1].
    destruct (quantileQ_between qs p' Hs Hn Hp0' Hp1) as [H2 _].
    eapply Qle_trans; [exact H1 |]. eapply Qle_trans; [| exact H2].
    apply nth_sorted; [assumption | lia].
Qed.

Lemma floor_rank_25 n :
  Qfloor (rank n 0.25) = ((Z.of_nat n - 1) * 25 / 100)%Z.
Proof. reflexivity. Qed.

Lemma floor_rank_50 n :
  Qfloor (rank n 0.5) = ((Z.of_nat n - 1) * 5 / 10)%Z.
Proof. reflexivity. Qed.

Lemma floor_rank_75 n :
  Qfloor (rank n 0.75) = ((Z.of_nat n - 1) * 75 / 100)%Z.
Proof. reflexivity. Qed.

Lemma quartiles_ordered qs :
  StronglySorted Qle qs -> qs <> [] ->
  quantileQ qs 0.25 <= quantileQ qs 0.5 /\ quantileQ qs 0.5 <= quantileQ qs 0.75.
Proof.
  intros Hs Hne. split; apply quantileQ_mono; try assumption; lra.
Qed.

Lemma quantileQ_pair a b :
  quantileQ [a; b] 0.25 == a + (b - a) * 0.25
  /\ quantileQ [a; b] 0.5 == a + (b - a) * 0.5
  /\ quantileQ [a; b] 0.75 == a + (b - a) * 0.75.
Proof.
  unfold quantileQ.
  change (rank (length [a; b]) 0.25) with (1 * 0.25).
  change (rank (length [a; b]) 0.5) with (1 * 0.5).
  change (rank (length [a; b]) 0.75) with (1 * 0.75).
  change (Qfloor (1 * 0.25)) with 0%Z.
  change (Qfloor (1 * 0.5)) with 0%Z.
  change (Qfloor (1 * 0.75)) with 0%Z.
  cbn [length Nat.ltb Nat.leb Z.to_nat nth inject_Z].
  repeat split; ring.
Qed.

(** A retained value between the lower fence and the median. *)
Lemma fence_low qs :
  StronglySorted Qle qs -> qs <> [] ->
  exists e, In e qs /\ lowerFenceQ qs <= e /\ e <= quantileQ qs 0.5
            /\ e <= upperFenceQ qs.
Proof.
  intros Hs Hne. unfold lowerFenceQ, upperFenceQ.
  destruct (quartiles_ordered qs Hs Hne) as [H12 H23].
  destruct qs as [| a [| b [| c qs]]]; [congruence | | |].
  - exists a. unfold quantileQ. simpl. split; [auto |]. split; [| split]; lra.
  - exists a. split; [simpl; auto |].
    assert (Hab : a <= b) by (apply (nth_sorted _ Hs 0%nat 1%nat); simpl; lia).
    destruct (quantileQ_pair a b) as (E1 & E2 & E3).
    rewrite E1, E2, E3. split; [| split]; lra.
  - set (l := a :: b :: c :: qs) in *.
    assert (Hn : (3 <= length l)%nat) by (simpl; lia).
    assert (Hn2 : (2 <= length l)%nat) by lia.
    destruct (quantileQ_between l 0.25 Hs Hn2 ltac:(lra) ltac:(lra)) as [_ H1].
    destruct (quantileQ_between l 0.5 Hs Hn2 ltac:(lra) ltac:(lra)) as [H2 _].
    cbv zeta in H1, H2.
    pose proof (rank_floor_bounds (length l) 0.25 Hn2 ltac:(lra) ltac:(lra)) as B1.
    pose proof (rank_floor_bounds (length l) 0.5 Hn2 ltac:(lra) ltac:(lra)) as B2.
    assert (Hidx : (S (Z.to_nat (Qfloor (rank (length l) 0.25)))
                    <= Z.to_nat (Qfloor (rank (length l) 0.5)))%nat).
    { rewrite floor_rank_25, floor_rank_50 in *.
      Z.div_mod_to_equations. lia. }
    exists (nth (S (Z.to_nat (Qfloor (rank (length l) 0.25)))) l 0).
    split; [apply nth_In; lia |].
    assert (Hmid : nth (S (Z.to_nat (Qfloor (rank (length l) 0.25)))) l 0
                   <= quantileQ l 0.5).
    { eapply Qle_trans; [| exact H2]. apply nth_sorted; [assumption | lia]. }
    split; [| split]; lra.
Qed.

(** A retained value between the median and the upper fence. *)
Lemma fence_high qs :
  StronglySorted Qle qs -> qs <> [] ->
  exists e, In e qs /\ quantileQ qs 0.5 <= e /\ e <= upperFenceQ qs
            /\ lowerFenceQ qs <= e.
Proof.
  intros Hs Hne. unfold lowerFenceQ, upperFenceQ.
  destruct (quartiles_ordered qs Hs Hne) as [H12 H23].
  destruct qs as [| a [| b [| c qs]]]; [congruence | | |].
  - exists a. unfold quantileQ. simpl. split; [auto |]. split; [| split]; lra.
  - exists b. split; [simpl; auto |].
    assert (Hab : a <= b) by (apply (nth_sorted _ Hs 0%nat 1%nat); simpl; lia).
    destruct (quantileQ_pair a b) as (E1 & E2 & E3).
    rewrite E1, E2, E3. split; [| split]; lra.
  - set (l := a :: b :: c :: qs) in *.
    assert (Hn : (3 <= length l)%nat) by (simpl; lia).
    assert (Hn2 : (2 <= length l)%nat) by lia.
    destruct (quantileQ_between l 0.75 Hs Hn2 ltac:(lra) ltac:(lra)) as [H3 _].
    destruct (quantileQ_between l 0.5 Hs Hn2 ltac:(lra) ltac:(lra)) as [_ H2].
    cbv zeta in H3, H2.
    pose proof (rank_floor_bounds (length l) 0.75 Hn2 ltac:(lra) ltac:(lra)) as B3.
    pose proof (rank_floor_bounds (length l) 0.5 Hn2 ltac:(lra) ltac:(lra)) as B2.
    exists (nth (Z.to_nat (Qfloor (rank (length l) 0.75))) l 0).
    split; [apply nth_In; lia |].
    assert (Hmid : quantileQ l 0.5
                   <= nth (Z.to_nat (Qfloor (rank (length l) 0.75))) l 0).
    { destruct (Z.eq_dec (Z.modulo (Z.of_nat (length l) - 1) 2) 0%Z) as [Hev | Hodd].
      - rewrite quantileQ_exact.
        + apply nth_sorted; [assumption |].
          rewrite floor_rank_50, floor_rank_75 in *.
          Z.div_mod_to_equations. lia.
        + lia.
        + rewrite floor_rank_50. unfold rank.
          generalize dependent (Z.of_nat (length l) - 1)%Z. intros m Hm.
          unfold Qeq. simpl. Z.div_mod_to_equations. lia.
      - eapply Qle_trans; [exact H2 |]. apply nth_sorted; [assumption |].
        rewrite floor_rank_50, floor_rank_75 in *.
        Z.div_mod_to_equations. lia. }
    split; [| split]; lra.
Qed.




End QuantileFacts.

(* ================================================================== *)
(** ** From number values to rationals *)
(* ================================================================== *)

Section Lifting.
Import JS.

Lemma at_index_Fin qs i :
  (0 <= i < Z.of_nat (length qs))%Z ->
  at_index (map Fin qs) i = Some (Fin (nth (Z.to_nat i) qs 0%Q)).
Proof.
  intros Hi. unfold at_index.
  destruct (Z.ltb_spec i 0) as [H | _]; [lia |].
  rewrite nth_error_map.
  rewrite (nth_error_nth' qs 0%Q) by lia. reflexivity.
Qed.

Lemma quantile_Fin qs p :
  qs <> [] -> (0 < p)%Q -> (p < 1)%Q ->
  D3.quantile (map Fin qs) p = Some (Fin (quantileQ qs p)).
Proof.
  intros Hne Hp0 Hp1. unfold D3.quantile, quantileQ.
  rewrite length_map.
  assert (Hlen : (1 <= length qs)%nat) by (destruct qs; simpl; [congruence | lia]).
  destruct (Z.eqb_spec (Z.of_nat (length qs)) 0) as [H0 | _]; [lia |].
  replace (Qle_bool p 0) with false
    by (symmetry; apply Bool.not_true_iff_false; rewrite Qle_bool_iff; lra).
  replace (Qle_bool 1 p) with false
    by (symmetry; apply Bool.not_true_iff_false; rewrite Qle_bool_iff; lra).
  cbn [orb].
  destruct (Z.ltb_spec (Z.of_nat (length qs)) 2) as [Hlt | Hge];
    destruct (Nat.ltb_spec (length qs) 2) as [Hlt' | Hge']; try lia.
  - apply at_index_Fin. lia.
  - fold (rank (length qs) p).
    pose proof (rank_floor_bounds (length qs) p Hge' Hp0 Hp1) as Hb.
    rewrite !at_index_Fin by lia.
    replace (Z.to_nat (Qfloor (rank (length qs) p) + 1))
      with (S (Z.to_nat (Qfloor (rank (length qs) p)))) by lia.
    reflexivity.
Qed.

Lemma fold_add_Fin qs a :
  fold_left add (map Fin qs) (Fin a) = Fin (fold_left Qplus qs a).
Proof.
  revert a. induction qs as [| q qs IH]; intros a; simpl; [reflexivity |].
  apply IH.
Qed.

Lemma filter_valid_Fin qs :
  List.filter (fun v => ge v v) (map Fin qs) = map Fin qs.
Proof.
  induction qs as [| q qs IH]; simpl; [reflexivity |].
  unfold ge at 1. rewrite le_refl by reflexivity. rewrite IH. reflexivity.
Qed.

Lemma mean_Fin qs :
  qs <> [] ->
  D3.mean (map Fin qs)
  = Some (Fin (fold_left Qplus qs 0 / inject_Z (Z.of_nat (length qs)))%Q).
Proof.
  intros Hne. unfold D3.mean.
  rewrite filter_valid_Fin, length_map, fold_add_Fin.
  destruct (Nat.eqb_spec (length qs) 0) as [H0 | Hn].
  - destruct qs; [congruence | discriminate].
  - unfold of_nat, div.
    replace (Qeq_bool (inject_Z (Z.of_nat (length qs))) 0) with false;
      [reflexivity |].
    symmetry. apply Bool.not_true_iff_false. rewrite Qeq_bool_iff.
    unfold Qeq. simpl. lia.
Qed.

Lemma sorted_Fin qs :
  StronglySorted leP (map Fin qs) <-> StronglySorted Qle qs.
Proof.
  induction qs as [| q qs IH]; simpl.
  - split; constructor.
  - split; intros H; inversion H as [| ? ? Hs Hf]; subst;
      (constructor; [apply IH; assumption |]).
    + rewrite List.Forall_forall in *. intros x Hx.
      apply le_Fin, Hf, in_map, Hx.
    + rewrite List.Forall_forall in *. intros v Hv.
      apply in_map_iff in Hv. destruct Hv as [x [<- Hx]].
      apply le_Fin, Hf, Hx.
Qed.


Lemma filter_Fin (f : number -> bool) qs :
  List.filter f (map Fin qs) = map Fin (List.filter (fun q => f (Fin q)) qs).
Proof.
  induction qs as [| q qs IH]; simpl; [reflexivity |].
  destruct (f (Fin q)); simpl; rewrite IH; reflexivity.
Qed.

End Lifting.

(* ================================================================== *)
(** ** Searching a sorted array *)
(* ================================================================== *)

Section FindSorted.
Context {A : Type} (R : A -> A -> Prop).



End FindSorted.


Lemma sorted_filter {A} (R : A -> A -> Prop) (f : A -> bool) l :
  StronglySorted R l -> StronglySorted R (List.filter f l).
Proof.
  induction 1 as [| a l Hs IH Ha]; simpl; [constructor |].
  destruct (f a); [| exact IH]. constructor; [exact IH |].
  rewrite List.Forall_forall in *. intros y Hy. apply filter_In in Hy.
  apply Ha, Hy.
Qed.

Lemma sorted_In_bounds qs e :
  StronglySorted Qle qs -> In e qs ->
  (nth 0 qs 0 <= e /\ e <= nth (length qs - 1) qs 0)%Q.
Proof.
  intros Hs Hin. destruct (In_nth _ _ 0%Q Hin) as (i & Hi & <-).
  split; apply nth_sorted; try assumption; lia.
Qed.

(* ================================================================== *)
(** ** The statistics of finite values *)
(* ================================================================== *)

Section StatsFacts.
Import JS.

(** [_calculateBoxplotStats] on an ascending array of finite values. *)
Lemma plugin_stats_Fin qs :
  qs <> [] -> StronglySorted Qle qs ->
  Plugin._calculateBoxplotStats (map Fin qs)
  = Some {|
      Plugin.min :=
        or_num (find (fun v => ge v (Fin (lowerFenceQ qs))) (map Fin qs))
               (Some (Fin (nth 0 qs 0%Q)));
      Plugin.max :=
        or_num (find (fun v => le v (Fin (upperFenceQ qs))) (rev (map Fin qs)))
               (Some (Fin (nth (length qs - 1) qs 0%Q)));
      Plugin.q1 := Some (Fin (quantileQ qs 0.25));
      Plugin.median := Some (Fin (quantileQ qs 0.5));
      Plugin.q3 := Some (Fin (quantileQ qs 0.75));
      Plugin.mean :=
        Some (Fin (fold_left Qplus qs 0 / inject_Z (Z.of_nat (length qs)))%Q);
      Plugin.outliers :=
        List.filter (fun v => lt v (Fin (lowerFenceQ qs))
                              || gt v (Fin (upperFenceQ qs))) (map Fin qs);
      Plugin.count := length qs
    |}.
Proof.
  intros Hne Hs. unfold Plugin._calculateBoxplotStats.
  rewrite length_map.
  assert (Hlen : (1 <= length qs)%nat) by (destruct qs; simpl; [congruence | lia]).
  destruct (Nat.eqb_spec (length qs) 0) as [H0 | _]; [lia |].
  rewrite sort_sorted_id by (apply sorted_Fin; assumption).
  rewrite length_map.
  rewrite !quantile_Fin by (try assumption; lra).
  rewrite mean_Fin by assumption.
  rewrite !at_index_Fin by lia.
  replace (Z.to_nat (Z.of_nat (length qs) - 1)) with (length qs - 1)%nat by lia.
  reflexivity.
Qed.

(** [calculateBoxplotStats] on an ascending array of finite values. *)
Lemma react_stats_Fin qs :
  qs <> [] -> StronglySorted Qle qs ->
  let nonOutliers :=
    List.filter (fun q => Qle_bool (lowerFenceQ qs) q && Qle_bool q (upperFenceQ qs)) qs in
  ReactProper.calculateBoxplotStats (map Fin qs)
  = {|
      ReactProper.count := length qs;
      ReactProper.min :=
        if (0 <? length nonOutliers)%nat
        then Some (Fin (nth 0 nonOutliers 0%Q)) else Some (Fin (nth 0 qs 0%Q));
      ReactProper.q1 := Some (Fin (quantileQ qs 0.25));
      ReactProper.median := Some (Fin (quantileQ qs 0.5));
      ReactProper.q3 := Some (Fin (quantileQ qs 0.75));
      ReactProper.max :=
        if (0 <? length nonOutliers)%nat
        then Some (Fin (nth (length nonOutliers - 1) nonOutliers 0%Q))
        else Some (Fin (nth (length qs - 1) qs 0%Q));
      ReactProper.mean :=
        Some (Fin (fold_left Qplus qs 0 / inject_Z (Z.of_nat (length qs)))%Q);
      ReactProper.outliers :=
        List.filter (fun v => lt v (Fin (lowerFenceQ qs))
                              || gt v (Fin (upperFenceQ qs))) (map Fin qs)
    |}.
Proof.
  intros Hne Hs nonOutliers. unfold ReactProper.calculateBoxplotStats.
  assert (Hlen : (1 <= length qs)%nat) by (destruct qs; simpl; [congruence | lia]).
  rewrite sort_sorted_id by (apply sorted_Fin; assumption).
  rewrite length_map.
  rewrite !quantile_Fin by (try assumption; lra).
  rewrite mean_Fin by assumption.
  change (sub (num (Some (Fin (quantileQ qs 0.25))))
            (mul (Fin 1.5) (sub (num (Some (Fin (quantileQ qs 0.75))))
                                (num (Some (Fin (quantileQ qs 0.25)))))))
    with (Fin (lowerFenceQ qs)).
  change (add (num (Some (Fin (quantileQ qs 0.75))))
            (mul (Fin 1.5) (sub (num (Some (Fin (quantileQ qs 0.75))))
                                (num (Some (Fin (quantileQ qs 0.25)))))))
    with (Fin (upperFenceQ qs)).
  rewrite (filter_Fin (fun v => ge v (Fin (lowerFenceQ qs)) && le v (Fin (upperFenceQ qs)))).
  change (List.filter _ qs) with nonOutliers.
  rewrite length_map.
  rewrite (at_index_Fin qs) by lia.
  rewrite (at_index_Fin qs) by lia.
  replace (Z.to_nat (Z.of_nat (length qs) - 1)) with (length qs - 1)%nat by lia.
  destruct (Nat.ltb_spec 0 (length nonOutliers)) as [Hno | Hno].
  - rewrite !at_index_Fin by lia.
    replace (Z.to_nat (Z.of_nat (length nonOutliers) - 1))
      with (length nonOutliers - 1)%nat by lia.
    reflexivity.
  - reflexivity.
Qed.




(** Some retained value always lies within the fences. *)
Lemma nonOutliers_bounds qs :
  qs <> [] -> StronglySorted Qle qs ->
  let nonOutliers :=
    List.filter (fun q => Qle_bool (lowerFenceQ qs) q && Qle_bool q (upperFenceQ qs)) qs in
  (0 < length nonOutliers)%nat
  /\ (nth 0 nonOutliers 0 <= quantileQ qs 0.5)%Q
  /\ (quantileQ qs 0.5 <= nth (length nonOutliers - 1) nonOutliers 0)%Q.
Proof.
  intros Hne Hs nonOutliers.
  assert (Hsn : StronglySorted Qle nonOutliers) by (apply sorted_filter; exact Hs).
  destruct (fence_low qs Hs Hne) as (e & He & Hlo & Hmd & Hup).
  destruct (fence_high qs Hs Hne) as (e' & He' & Hmd' & Hup' & Hlo').
  assert (Hin : In e nonOutliers).
  { apply filter_In. split; [exact He |].
    apply andb_true_intro. split; apply Qle_bool_iff; assumption. }
  assert (Hin' : In e' nonOutliers).
  { apply filter_In. split; [exact He' |].
    apply andb_true_intro. split; apply Qle_bool_iff; assumption. }
  destruct (sorted_In_bounds _ _ Hsn Hin) as [H0 _].
  destruct (sorted_In_bounds _ _ Hsn Hin') as [_ H1].
  split; [destruct nonOutliers; [destruct Hin | simpl; lia] |].
  split; eapply Qle_trans; eassumption.
Qed.



(** In [calculateBoxplotStats] the whiskers are the extreme retained
    values within the fences. *)
Lemma react_whiskers qs :
  qs <> [] -> StronglySorted Qle qs ->
  exists mn mx,
    ReactProper.min (ReactProper.calculateBoxplotStats (map Fin qs)) = Some (Fin mn)
    /\ In mn qs /\ (lowerFenceQ qs <= mn)%Q
    /\ (forall x, In x qs -> (lowerFenceQ qs <= x)%Q -> (mn <= x)%Q)
    /\ ReactProper.max (ReactProper.calculateBoxplotStats (map Fin qs)) = Some (Fin mx)
    /\ In mx qs /\ (mx <= upperFenceQ qs)%Q
    /\ (forall x, In x qs -> (x <= upperFenceQ qs)%Q -> (x <= mx)%Q).
Proof.
  intros Hne Hs. rewrite react_stats_Fin by assumption.
  cbn [ReactProper.min ReactProper.max].
  destruct (nonOutliers_bounds qs Hne Hs) as (Hn & _ & _). cbv zeta in Hn.
  set (no := List.filter
               (fun q => Qle_bool (lowerFenceQ qs) q && Qle_bool q (upperFenceQ qs))
               qs) in *.
  assert (Hsn : StronglySorted Qle no) by (apply sorted_filter; exact Hs).
  assert (Hmem : forall x, In x no <->
                   In x qs /\ (lowerFenceQ qs <= x)%Q /\ (x <= upperFenceQ qs)%Q).
  { intros x. unfold no. rewrite List.filter_In, Bool.andb_true_iff, !Qle_bool_iff.
    reflexivity. }
  assert (H0 : In (nth 0 no 0%Q) no) by (apply nth_In; lia).
  assert (H1 : In (nth (length no - 1) no 0%Q) no) by (apply nth_In; lia).
  apply Nat.ltb_lt in Hn. rewrite Hn.
  exists (nth 0 no 0%Q), (nth (length no - 1) no 0%Q).
  pose proof (proj1 (Hmem _) H0) as (Ha & Hb & Hc).
  pose proof (proj1 (Hmem _) H1) as (Ha' & Hb' & Hc').
  repeat split; try assumption.
  - intros x Hx Hlo. destruct (Qlt_le_dec (upperFenceQ qs) x) as [Hgt | Hle].
    + apply Qlt_le_weak. eapply Qle_lt_trans; eassumption.
    + apply (sorted_In_bounds no x Hsn). apply Hmem. auto.
  - intros x Hx Hup. destruct (Qlt_le_dec x (lowerFenceQ qs)) as [Hlt | Hge].
    + apply Qlt_le_weak. eapply Qlt_le_trans; eassumption.
    + apply (sorted_In_bounds no x Hsn). apply Hmem. auto.
Qed.

End StatsFacts.

(* ================================================================== *)
(** ** The aggregation loops *)
(* ================================================================== *)

Section ClassifyFacts.

Lemma type_is_functional schema col s t :
  type_is schema col s = true -> type_is schema col t = true -> s = t.
Proof.
  unfold type_is. destruct (schema !! col); [| discriminate].
  rewrite !String.eqb_eq. congruence.
Qed.

Lemma plugin_classify_fold schema cols nums cats :
  fold_left
    (fun '(numericColumns, categoricalColumns) col =>
       if type_is schema col "float" || type_is schema col "integer"
       then (numericColumns ++ [col], categoricalColumns)
       else if type_is schema col "string"
       then (numericColumns, categoricalColumns ++ [col])
       else (numericColumns, categoricalColumns))
    cols (nums, cats)
  = (nums ++ List.filter (fun col => type_is schema col "float"
                                     || type_is schema col "integer") cols,
     cats ++ List.filter (fun col => type_is schema col "string") cols).
Proof.
  revert nums cats. induction cols as [| c cols IH]; intros nums cats; simpl.
  - rewrite !app_nil_r. reflexivity.
  - destruct (type_is schema c "float") eqn:Ef;
      destruct (type_is schema c "integer") eqn:Ei;
      destruct (type_is schema c "string") eqn:Es; simpl;
      rewrite IH, <- ?app_assoc; try reflexivity;
      try (pose proof (type_is_functional _ _ _ _ Ef Es); discriminate);
      try (pose proof (type_is_functional _ _ _ _ Ei Es); discriminate).
Qed.

(** The loop of [_processRawData] sorts the configured columns into the
    numeric ones (float or integer) and the categorical ones (string). *)
Lemma plugin_classify schema cols :
  Plugin.classify schema cols
  = (List.filter (fun col => type_is schema col "float"
                             || type_is schema col "integer") cols,
     List.filter (fun col => type_is schema col "string") cols).
Proof. unfold Plugin.classify. apply plugin_classify_fold. Qed.

End ClassifyFacts.

Section AggregateFacts.
Import JS.

Lemma plugin_aggregate data config schema :
  Plugin._processRawData data config schema
  = let nums := fst (Plugin.classify schema (configColumns config)) in
    let cats := snd (Plugin.classify schema (configColumns config)) in
    let g := fst (Plugin.resolveGroupBy config cats) in
    if (length nums =? 0)%nat then []
    else aggregate plugin_record (plugin_key g) (truthy_column g) data nums.
Proof.
  unfold Plugin._processRawData. fold (configColumns config).
  destruct (Plugin.classify schema (configColumns config)) as [nums cats].
  cbn [fst snd]. cbv zeta.
  destruct (length nums =? 0)%nat; [reflexivity |].
  unfold aggregate.
  destruct (truthy_column (Plugin.resolveGroupBy config cats).1); [| reflexivity].
  apply flat_map_ext. intros [k rows]. reflexivity.
Qed.

Lemma react_aggregate data g metricColumns :
  ReactProper.renderBoxplot data g metricColumns
  = aggregate react_record (react_key g) (truthy_column g) data metricColumns.
Proof.
  unfold ReactProper.renderBoxplot, aggregate.
  destruct (truthy_column g); [| reflexivity].
  apply flat_map_ext. intros [k rows]. reflexivity.
Qed.

Lemma In_forEach_from {A B} (f : A -> nat -> list B) l n x :
  In x (forEach_from n f l)
  <-> exists i y, nth_error l i = Some y /\ In x (f y (n + i)%nat).
Proof.
  revert n. induction l as [| a l IH]; intros n; simpl.
  - split; [intros [] | intros (i & y & H & _); destruct i; discriminate].
  - rewrite in_app_iff, IH. split.
    + intros [H | (i & y & Hi & H)].
      * exists 0%nat, a. rewrite Nat.add_0_r. auto.
      * exists (S i), y. rewrite Nat.add_succ_r. auto.
    + intros ([| i] & y & Hi & H); simpl in Hi.
      * injection Hi as ->. rewrite Nat.add_0_r in H. auto.
      * right. exists i, y. rewrite Nat.add_succ_r in H. auto.
Qed.

Lemma In_forEach {A B} (f : A -> nat -> list B) l x :
  In x (forEach l f) <-> exists i y, nth_error l i = Some y /\ In x (f y i).
Proof. unfold forEach. apply In_forEach_from. Qed.

Context {R : Type} (mk : value -> string -> nat -> list number -> R).

Lemma In_cell k rows m i r :
  In r (cell mk k rows m i)
  <-> Plugin.cellValues rows m <> [] /\ r = mk k m i (Plugin.cellValues rows m).
Proof.
  unfold cell. cbv zeta.
  destruct (Plugin.cellValues rows m) as [| v vs] eqn:E; simpl.
  - split; [intros [] | intros [H _]; congruence].
  - split; [intros [<- | []]; split; [discriminate | reflexivity]
           | intros [_ ->]; auto].
Qed.

Lemma In_aggregate key grouped data nums r :
  In r (aggregate mk key grouped data nums)
  <-> exists i m, nth_error nums i = Some m /\
        if grouped
        then exists k rows, In (k, rows) (D3.group data key)
                            /\ In r (cell mk k rows m i)
        else In r (cell mk (str m) data m i).
Proof.
  unfold aggregate. destruct grouped.
  - rewrite in_flat_map. split.
    + intros ([k rows] & Hin & Hr). apply In_forEach in Hr.
      destruct Hr as (i & m & Hi & Hr). exists i, m. eauto.
    + intros (i & m & Hi & k & rows & Hin & Hr).
      exists (k, rows). split; [exact Hin |].
      apply In_forEach. eauto.
  - apply In_forEach.
Qed.

Lemma cellValues_not_NaN rows m :
  Forall (fun v => isNaN v = false) (Plugin.cellValues rows m).
Proof.
  unfold Plugin.cellValues.
  eapply Permutation_Forall; [apply Permutation_sym, sort_perm |].
  apply List.Forall_forall. intros v Hv. apply filter_In in Hv.
  destruct Hv as [_ Hv]. apply Bool.negb_true_iff. exact Hv.
Qed.

Lemma cellValues_sorted rows m : StronglySorted leP (Plugin.cellValues rows m).
Proof.
  unfold Plugin.cellValues. apply sort_sorted.
  apply List.Forall_forall. intros v Hv. apply filter_In in Hv.
  destruct Hv as [_ Hv]. apply Bool.negb_true_iff. exact Hv.
Qed.

End AggregateFacts.

(* ================================================================== *)
(** ** What the pipelines push *)
(* ================================================================== *)

Section PipelineFacts.
Import JS.

Lemma plugin_In data config schema r :
  In r (Plugin._processRawData data config schema) ->
  let nums := fst (Plugin.classify schema (configColumns config)) in
  let cats := snd (Plugin.classify schema (configColumns config)) in
  let g := fst (Plugin.resolveGroupBy config cats) in
  exists k rows m i,
    r = plugin_record k m i (Plugin.cellValues rows m)
    /\ Plugin.cellValues rows m <> []
    /\ nth_error nums i = Some m
    /\ if truthy_column g
       then In (k, rows) (D3.group data (plugin_key g))
       else k = str m /\ rows = data.
Proof.
  rewrite plugin_aggregate. cbv zeta.
  destruct (length _ =? 0)%nat; [intros [] |].
  intros Hr. apply In_aggregate in Hr. destruct Hr as (i & m & Hi & Hr).
  destruct (truthy_column _).
  - destruct Hr as (k & rows & Hin & Hr). apply In_cell in Hr.
    destruct Hr as [Hne ->]. exists k, rows, m, i. auto.
  - apply In_cell in Hr. destruct Hr as [Hne ->].
    exists (str m), data, m, i. auto.
Qed.

Lemma react_In data config schema r :
  In r (ReactProper.draw data config schema) ->
  let nums := ReactProper.numericColumns schema (configColumns config) in
  let cats := ReactProper.categoricalColumns schema (configColumns config) in
  let g := fst (ReactProper.resolveGroupBy config cats) in
  exists k rows m i,
    r = react_record k m i (Plugin.cellValues rows m)
    /\ Plugin.cellValues rows m <> []
    /\ nth_error nums i = Some m
    /\ if truthy_column g
       then In (k, rows) (D3.group data (react_key g))
       else k = str m /\ rows = data.
Proof.
  unfold ReactProper.draw. fold (configColumns config). cbv zeta.
  destruct (length data =? 0)%nat; [intros [] |].
  destruct (length _ =? 0)%nat; [intros [] |].
  rewrite react_aggregate.
  intros Hr. apply In_aggregate in Hr. destruct Hr as (i & m & Hi & Hr).
  destruct (truthy_column _).
  - destruct Hr as (k & rows & Hin & Hr). apply In_cell in Hr.
    destruct Hr as [Hne ->]. exists k, rows, m, i. auto.
  - apply In_cell in Hr. destruct Hr as [Hne ->].
    exists (str m), data, m, i. auto.
Qed.

(** The outliers of [_calculateBoxplotStats] are the sorted values
    strictly outside the fences. *)
Lemma plugin_stats_outliers vs :
  vs <> [] ->
  exists st,
    Plugin._calculateBoxplotStats vs = Some st
    /\ Plugin.outliers st
       = List.filter (outside (Plugin.q1 st) (Plugin.q3 st)) (sort D3.ascending vs)
    /\ Plugin.count st = length vs.
Proof.
  intros Hne. unfold Plugin._calculateBoxplotStats.
  destruct vs as [| v vs]; [congruence |].
  cbn [length Nat.eqb]. eexists. split; [reflexivity |].
  cbn [Plugin.outliers Plugin.q1 Plugin.q3 Plugin.count].
  split; [reflexivity | apply sort_length].
Qed.

Lemma react_stats_outliers vs :
  let st := ReactProper.calculateBoxplotStats vs in
  ReactProper.outliers st
  = List.filter (outside (ReactProper.q1 st) (ReactProper.q3 st))
      (sort D3.ascending vs)
  /\ ReactProper.count st = length vs.
Proof.
  cbv zeta. unfold ReactProper.calculateBoxplotStats.
  cbn [ReactProper.outliers ReactProper.q1 ReactProper.q3 ReactProper.count].
  split; [reflexivity | apply sort_length].
Qed.

Lemma filter_sublist {A} (f : A -> bool) l : sublist (List.filter f l) l.
Proof.
  induction l as [| x l IH]; simpl; [constructor |].
  destruct (f x); constructor; exact IH.
Qed.


Lemma react_draw_aggregate data config schema :
  ReactProper.draw data config schema
  = let nums := ReactProper.numericColumns schema (configColumns config) in
    let cats := ReactProper.categoricalColumns schema (configColumns config) in
    let g := fst (ReactProper.resolveGroupBy config cats) in
    if (length data =? 0)%nat then []
    else if (length nums =? 0)%nat then []
    else aggregate react_record (react_key g) (truthy_column g) data nums.
Proof.
  unfold ReactProper.draw. fold (configColumns config). cbv zeta.
  destruct (length data =? 0)%nat; [reflexivity |].
  destruct (length _ =? 0)%nat; [reflexivity |].
  apply react_aggregate.
Qed.

End PipelineFacts.

(* ================================================================== *)
(** ** Order and coverage of the aggregation *)
(* ================================================================== *)

Section OrderFacts.
Import JS.

Context {R : Type} (mk : value -> string -> nat -> list number -> R).
Context (keyOf : R -> value) (metricOf : R -> string)
        (valuesOf : R -> list number).
Hypothesis keyOf_mk : forall k m i vs, keyOf (mk k m i vs) = k.
Hypothesis metricOf_mk : forall k m i vs, metricOf (mk k m i vs) = m.
Hypothesis valuesOf_mk : forall k m i vs, valuesOf (mk k m i vs) = vs.

(** The cells of one pass over the metric columns, the key of a cell
    possibly depending on its metric. *)
Let pass (kf : string -> value) (rows : list row) (n : nat) (nums : list string) :=
  forEach_from n (fun m i => cell mk (kf m) rows m i) nums.

Lemma pass_metrics kf rows n nums :
  map metricOf (pass kf rows n nums) = List.filter (has_values rows) nums.
Proof.
  unfold pass. revert n. induction nums as [| m nums IH]; intros n; simpl;
    [reflexivity |].
  rewrite map_app, IH. unfold cell, has_values. cbv zeta.
  destruct (0 <? length (Plugin.cellValues rows m))%nat; simpl;
    rewrite ?metricOf_mk; reflexivity.
Qed.

Lemma pass_keys kf rows n nums r :
  In r (pass kf rows n nums) -> keyOf r = kf (metricOf r).
Proof.
  unfold pass. intros Hr. apply In_forEach_from in Hr.
  destruct Hr as (i & m & _ & Hr). apply In_cell in Hr. destruct Hr as [_ ->].
  rewrite keyOf_mk, metricOf_mk. reflexivity.
Qed.






(** The grouped output lists the partitions in the order in which their
    keys first occur, each with the rows having its key. *)
Lemma aggregate_grouped key data nums :
  aggregate mk key true data nums
  = flat_map (fun k => pass (fun _ => k) (partition_of key k data) 0 nums)
      (discovery (map key data)).
Proof.
  unfold aggregate. rewrite <- group_keys.
  rewrite flat_map_concat_map, flat_map_concat_map, map_map. f_equal.
  apply map_ext_in. intros [k rows] Hin. cbn [fst snd].
  apply group_members in Hin. destruct Hin as [-> _]. reflexivity.
Qed.

Lemma pass_NoDup_metrics kf rows n nums :
  List.NoDup nums -> List.NoDup (map metricOf (pass kf rows n nums)).
Proof. intros H. rewrite pass_metrics. apply List.NoDup_filter, H. Qed.

Lemma NoDup_map_pairs {A B} (f : A -> B) (P : A -> A -> Prop) l :
  List.NoDup (map f l) -> (forall x y, f x <> f y -> P x y) -> ForallOrdPairs P l.
Proof.
  intros Hnd HP. induction l as [| x l IH]; simpl in *; constructor.
  - inversion Hnd as [| ? ? Hx Hl]; subst.
    apply List.Forall_forall. intros y Hy. apply HP. intros E.
    apply Hx. rewrite E. apply in_map, Hy.
  - apply IH. inversion Hnd; assumption.
Qed.

Lemma ForallOrdPairs_app {A} (P : A -> A -> Prop) l l' :
  ForallOrdPairs P l -> ForallOrdPairs P l' ->
  (forall x y, In x l -> In y l' -> P x y) -> ForallOrdPairs P (l ++ l').
Proof.
  induction 1 as [| x l Hx Hl IH]; intros Hl' Hc; simpl; [exact Hl' |].
  constructor.
  - apply List.Forall_app. split; [exact Hx |].
    apply List.Forall_forall. intros y Hy. apply Hc; simpl; auto.
  - apply IH; [exact Hl' |]. intros; apply Hc; simpl; auto.
Qed.

(** No two records share both key and metric when no metric column is
    listed twice. *)
Lemma aggregate_unique key grouped data nums :
  List.NoDup nums ->
  ForallOrdPairs
    (fun r1 r2 => ~ (sameValueZero (keyOf r1) (keyOf r2) = true
                     /\ metricOf r1 = metricOf r2))
    (aggregate mk key grouped data nums).
Proof.
  intros Hnd. destruct grouped.
  - rewrite aggregate_grouped.
    pose proof (discovery_distinct (map key data)) as Hd.
    induction Hd as [| k ks Hk Hks IH]; simpl; [constructor |].
    apply ForallOrdPairs_app.
    + apply (NoDup_map_pairs metricOf); [apply pass_NoDup_metrics, Hnd |].
      intros x y Hxy [_ E]. contradiction.
    + exact IH.
    + intros x y Hx Hy [E _].
      apply pass_keys in Hx. apply in_flat_map in Hy.
      destruct Hy as (k' & Hk' & Hy). apply pass_keys in Hy.
      rewrite Hx, Hy in E. rewrite List.Forall_forall in Hk.
      rewrite (Hk k' Hk') in E. discriminate.
  - unfold aggregate.
    apply (NoDup_map_pairs metricOf); [apply (pass_NoDup_metrics str), Hnd |].
    intros x y Hxy [_ E]. contradiction.
Qed.

(** The grouped output is a sequence of blocks, one per key in
    first-occurrence order; a block holds records of its key only, their
    metrics in the order of the metric columns. *)
Lemma aggregate_blocks key data nums :
  exists blocks,
    aggregate mk key true data nums = concat blocks
    /\ Forall2 (fun k block =>
                  Forall (fun r => keyOf r = k) block
                  /\ sublist (map metricOf block) nums)
         (discovery (map key data)) blocks.
Proof.
  exists (map (fun k => pass (fun _ => k) (partition_of key k data) 0 nums)
            (discovery (map key data))).
  split; [rewrite aggregate_grouped; apply flat_map_concat_map |].
  induction (discovery (map key data)) as [| k ks IH]; simpl; constructor;
    [| exact IH].
  split.
  - apply List.Forall_forall. intros r Hr. apply pass_keys in Hr. exact Hr.
  - rewrite pass_metrics. apply filter_sublist.
Qed.

(** Without grouping there is one record for each metric having a retained
    value, in the order of the metric columns, keyed by the metric's
    name. *)
Lemma aggregate_ungrouped key data nums :
  map metricOf (aggregate mk key false data nums)
  = List.filter (has_values data) nums
  /\ forall r, In r (aggregate mk key false data nums) ->
               keyOf r = str (metricOf r).
Proof.
  unfold aggregate. split.
  - apply (pass_metrics str data 0 nums).
  - intros r Hr. apply (pass_keys str data 0 nums r Hr).
Qed.


End OrderFacts.

(* ================================================================== *)
(** ** The properties of the specification *)
(* ================================================================== *)

Import JS.



(** C2.  In [react-proper.js] the categorical columns are the configured
    columns of type string or date, so a lone date column becomes
    [groupByColumn]; the loop of [_processRawData] only takes type string,
    and with one date and one float column it resolves no grouping. *)
Theorem C2_categorical_columns :
  (forall schema cols col,
     In col (ReactProper.categoricalColumns schema cols)
     <-> In col cols /\ (type_is schema col "string" = true
                         \/ type_is schema col "date" = true))
  /\ fst (ReactProper.resolveGroupBy config_date
            (ReactProper.categoricalColumns sample_schema (configColumns config_date)))
     = Some "when"
  /\ (forall schema cols col,
        In col (snd (Plugin.classify schema cols))
        <-> In col cols /\ type_is schema col "string" = true)
  /\ snd (Plugin.classify sample_schema (configColumns config_date)) = []
  /\ fst (Plugin.resolveGroupBy config_date
            (snd (Plugin.classify sample_schema (configColumns config_date))))
     = None.
Proof.
  repeat apply conj.
  - intros schema cols col. unfold ReactProper.categoricalColumns.
    split; intros H.
    + apply List.filter_In in H. cbv beta in H.
      rewrite Bool.orb_true_iff in H. exact H.
    + apply List.filter_In. cbv beta. rewrite Bool.orb_true_iff. exact H.
  - reflexivity.
  - intros schema cols col. rewrite plugin_classify. cbn [snd].
    exact (List.filter_In (fun c => type_is schema c "string") col cols).
  - reflexivity.
  - reflexivity.
Qed.

Lemma C2_categorical_columns_witness :
  In "when" (ReactProper.categoricalColumns sample_schema (configColumns config_date))
  /\ ~ In "when" (snd (Plugin.classify sample_schema (configColumns config_date))).
Proof.
  split.
  - apply (proj1 C2_categorical_columns). split.
    + left. reflexivity.
    + right. reflexivity.
  - intros H.
    apply (proj1 (proj2 (proj2 C2_categorical_columns))) in H.
    destruct H as [_ H]. vm_compute in H. discriminate.
Defined.




(** C4.  In [calculateBoxplotStats] of [react-proper.js], on finite
    values, [min] is the smallest retained value not below the lower
    fence and [max] the largest not above the upper fence.  In both
    variants a single finite value [v] gives
    [min = max = q1 = median = q3 = v], a mean equal to [v] and no
    outliers, zero included.  On [[-100, 0, 0, 0, 0]] both fences are 0
    and the smallest value within them is 0: [react-proper.js] returns
    [min = 0], but [_calculateBoxplotStats] returns [min = -100], the
    absolute minimum, which lies below the lower fence and is its own
    outlier. *)
Theorem C4_whiskers :
  (forall qs : list Q,
     qs <> [] -> StronglySorted Qle qs ->
     exists mn mx,
       ReactProper.min (ReactProper.calculateBoxplotStats (map Fin qs))
       = Some (Fin mn)
       /\ In mn qs /\ (lowerFenceQ qs <= mn)%Q
       /\ (forall x, In x qs -> (lowerFenceQ qs <= x)%Q -> (mn <= x)%Q)
       /\ ReactProper.max (ReactProper.calculateBoxplotStats (map Fin qs))
          = Some (Fin mx)
       /\ In mx qs /\ (mx <= upperFenceQ qs)%Q
       /\ (forall x, In x qs -> (x <= upperFenceQ qs)%Q -> (x <= mx)%Q))
  /\ (forall q : Q,
        exists st m,
          Plugin._calculateBoxplotStats [Fin q] = Some st
          /\ Plugin.min st = Some (Fin q) /\ Plugin.max st = Some (Fin q)
          /\ Plugin.q1 st = Some (Fin q) /\ Plugin.median st = Some (Fin q)
          /\ Plugin.q3 st = Some (Fin q)
          /\ Plugin.mean st = Some (Fin m) /\ m == q
          /\ Plugin.outliers st = [])
  /\ (exists st,
        Plugin._calculateBoxplotStats (fin [-100; 0; 0; 0; 0]%Z) = Some st
        /\ sameValueZero (numeric (lowerFence (Plugin.q1 st) (Plugin.q3 st)))
             (int 0) = true
        /\ sameValueZero (numeric (upperFence (Plugin.q1 st) (Plugin.q3 st)))
             (int 0) = true
        /\ List.filter (fun v => ge v (lowerFence (Plugin.q1 st) (Plugin.q3 st)))
             (fin [-100; 0; 0; 0; 0]%Z) = fin [0; 0; 0; 0]%Z
        /\ Plugin.min st = Some (Fin (inject_Z (-100)))
        /\ lt (num (Plugin.min st)) (lowerFence (Plugin.q1 st) (Plugin.q3 st)) = true
        /\ Plugin.outliers st = fin [-100]%Z)
  /\ map (fun r => option_map Plugin.min (Plugin.stats r))
       (Plugin._processRawData zero_rows config_sales sample_schema)
     = [Some (Some (Fin (inject_Z (-100))))]
  /\ map (fun r => ReactProper.min (ReactProper.stats r))
       (ReactProper.draw zero_rows config_sales sample_schema)
     = [Some (Fin (inject_Z 0))].
Proof.
  repeat apply conj.
  - apply react_whiskers.
  - intros q.
    assert (Hs : StronglySorted Qle [q]) by repeat constructor.
    assert (Hlo : Qle_bool (lowerFenceQ [q]) q = true).
    { apply Qle_bool_iff. unfold lowerFenceQ, quantileQ. simpl. lra. }
    assert (Hup : Qle_bool q (upperFenceQ [q]) = true).
    { apply Qle_bool_iff. unfold upperFenceQ, quantileQ. simpl. lra. }
    eexists _, _. split; [apply (plugin_stats_Fin [q]); [discriminate | exact Hs] |].
    cbn [Plugin.min Plugin.max Plugin.q1 Plugin.median Plugin.q3 Plugin.mean
         Plugin.outliers].
    repeat apply conj; try reflexivity.
    + cbn [map find List.find]. unfold ge at 1. cbn [le]. rewrite Hlo.
      unfold or_num. destruct (truthy_num _); reflexivity.
    + cbn [map rev app find List.find le]. rewrite Hup.
      unfold or_num. destruct (truthy_num _); reflexivity.
    + simpl. field.
    + cbn [map List.filter]. unfold gt. cbn [lt]. rewrite Hlo, Hup. reflexivity.
  - eexists. split; [vm_compute; reflexivity |]. vm_compute. tauto.
  - vm_compute. reflexivity.
  - vm_compute. reflexivity.
Qed.

Lemma C4_whiskers_witness :
  exists mn mx,
    ReactProper.min (ReactProper.calculateBoxplotStats (map Fin sample_values))
    = Some (Fin mn)
    /\ In mn sample_values /\ (lowerFenceQ sample_values <= mn)%Q
    /\ (forall x, In x sample_values -> (lowerFenceQ sample_values <= x)%Q -> (mn <= x)%Q)
    /\ ReactProper.max (ReactProper.calculateBoxplotStats (map Fin sample_values))
       = Some (Fin mx)
    /\ In mx sample_values /\ (mx <= upperFenceQ sample_values)%Q
    /\ (forall x, In x sample_values -> (x <= upperFenceQ sample_values)%Q -> (x <= mx)%Q).
Proof.
  apply (proj1 C4_whiskers sample_values).
  - discriminate.
  - repeat constructor; vm_compute; discriminate.
Defined.









(** C8.  [_processDataForBoxplot] returns the empty array when there are
    no rows or no numeric column; every record it returns has at least
    one value and the statistics of exactly those values; and a cell --
    a partition and a metric, or a metric alone without grouping -- whose
    retained values are empty has no record. *)
Theorem C8_empty_results :
  (forall config schema, Plugin._processDataForBoxplot [] config schema = [])
  /\ (forall data config schema,
        fst (Plugin.classify schema (configColumns config)) = [] ->
        Plugin._processDataForBoxplot data config schema = [])
  /\ (forall data config schema r,
        In r (Plugin._processDataForBoxplot data config schema) ->
        Plugin.values r <> []
        /\ exists st, Plugin.stats r = Some st
                      /\ Plugin.count st = length (Plugin.values r)
                      /\ (1 <= Plugin.count st)%nat)
  /\ (forall data config schema,
        let cats := snd (Plugin.classify schema (configColumns config)) in
        let g := fst (Plugin.resolveGroupBy config cats) in
        if truthy_column g
        then forall k rows m,
               In (k, rows) (D3.group data (plugin_key g)) ->
               Plugin.cellValues rows m = [] ->
               forall r, In r (Plugin._processDataForBoxplot data config schema) ->
                         ~ (Plugin.groupKey r = k /\ Plugin.metric r = m)
        else forall m,
               Plugin.cellValues data m = [] ->
               forall r, In r (Plugin._processDataForBoxplot data config schema) ->
                         Plugin.metric r <> m).
Proof.
  assert (Hsub : forall data config schema r,
             In r (Plugin._processDataForBoxplot data config schema) ->
             In r (Plugin._processRawData data config schema)).
  { intros data config schema r. unfold Plugin._processDataForBoxplot.
    destruct (length data =? 0)%nat; [intros [] | auto]. }
  repeat apply conj.
  - reflexivity.
  - intros data config schema H. unfold Plugin._processDataForBoxplot.
    destruct (length data =? 0)%nat; [reflexivity |].
    rewrite plugin_aggregate. cbv zeta. rewrite H. reflexivity.
  - intros data config schema r Hr. apply Hsub, plugin_In in Hr.
    destruct Hr as (k & rows & m & i & -> & Hne & _).
    cbn [plugin_record Plugin.values Plugin.stats]. split; [exact Hne |].
    destruct (plugin_stats_outliers _ Hne) as (st & Hst & _ & Hc).
    exists st. repeat split; try assumption.
    rewrite Hc. destruct (Plugin.cellValues rows m); [congruence | simpl; lia].
  - intros data config schema cats g.
    destruct (truthy_column g) eqn:Hg.
    + intros k rows m Hin Hnil r Hr [Hk Hm].
      apply Hsub, plugin_In in Hr. cbv zeta in Hr. fold cats g in Hr.
      rewrite Hg in Hr. destruct Hr as (k' & rows' & m' & i & -> & Hne & _ & Hin').
      cbn [plugin_record Plugin.groupKey Plugin.metric] in Hk, Hm. subst k' m'.
      apply group_members in Hin, Hin'.
      destruct Hin as [-> _], Hin' as [-> _]. congruence.
    + intros m Hnil r Hr Hm.
      apply Hsub, plugin_In in Hr. cbv zeta in Hr. fold cats g in Hr.
      rewrite Hg in Hr. destruct Hr as (k' & rows' & m' & i & -> & Hne & _ & _ & ->).
      cbn [plugin_record Plugin.metric] in Hm. subst m'. congruence.
Qed.

Lemma C8_empty_results_witness :
  Plugin._processDataForBoxplot sample_rows
    {| columns := Some ["region"]; group_by := None |} sample_schema = []
  /\ forall r, In r (Plugin._processDataForBoxplot sample_rows config_single
                       sample_schema) ->
       Plugin.values r <> []
       /\ exists st, Plugin.stats r = Some st
                     /\ Plugin.count st = length (Plugin.values r)
                     /\ (1 <= Plugin.count st)%nat.
Proof.
  split.
  - apply (proj1 (proj2 C8_empty_results)). reflexivity.
  - apply (proj1 (proj2 (proj2 C8_empty_results))).
Defined.

(** C9 (as amended).  With grouping, the output is a sequence of blocks,
    one per partition in the order in which the keys first occur among
    the rows, and within a block the records follow the order of the
    metric columns; without grouping there is one record for each metric
    that has a retained value, in that order, keyed by the metric's own
    name.  When no column is configured twice, no two records share both
    group key and metric. *)
Theorem C9_output_order :
  (forall data config schema,
     let nums := fst (Plugin.classify schema (configColumns config)) in
     let cats := snd (Plugin.classify schema (configColumns config)) in
     let g := fst (Plugin.resolveGroupBy config cats) in
     let out := Plugin._processRawData data config schema in
     (nums <> [] -> truthy_column g = true ->
      exists blocks,
        out = concat blocks
        /\ Forall2 (fun k block =>
                      Forall (fun r => Plugin.groupKey r = k) block
                      /\ sublist (map Plugin.metric block) nums)
             (discovery (map (plugin_key g) data)) blocks)
     /\ (truthy_column g = false ->
         map Plugin.metric out = List.filter (has_values data) nums
         /\ forall r, In r out -> Plugin.groupKey r = str (Plugin.metric r))
     /\ (List.NoDup (configColumns config) ->
         ForallOrdPairs
           (fun r1 r2 =>
              ~ (sameValueZero (Plugin.groupKey r1) (Plugin.groupKey r2) = true
                 /\ Plugin.metric r1 = Plugin.metric r2)) out))
  /\ (forall data config schema,
        let nums := ReactProper.numericColumns schema (configColumns config) in
        let cats := ReactProper.categoricalColumns schema (configColumns config) in
        let g := fst (ReactProper.resolveGroupBy config cats) in
        let out := ReactProper.draw data config schema in
        (data <> [] -> nums <> [] -> truthy_column g = true ->
         exists blocks,
           out = concat blocks
           /\ Forall2 (fun k block =>
                         Forall (fun r => ReactProper.group r = k) block
                         /\ sublist (map ReactProper.metric block) nums)
                (discovery (map (react_key g) data)) blocks)
        /\ (data <> [] -> truthy_column g = false ->
            map ReactProper.metric out = List.filter (has_values data) nums
            /\ forall r, In r out -> ReactProper.group r = str (ReactProper.metric r))
        /\ (List.NoDup (configColumns config) ->
            ForallOrdPairs
              (fun r1 r2 =>
                 ~ (sameValueZero (ReactProper.group r1) (ReactProper.group r2) = true
                    /\ ReactProper.metric r1 = ReactProper.metric r2)) out)).
Proof.
  split; intros data config schema nums cats g out.
  - unfold out. rewrite plugin_aggregate. cbv zeta. fold nums cats g.
    repeat apply conj.
    + intros Hne Hg. rewrite Hg.
      destruct nums as [| c cs] eqn:E; [congruence |]. cbn [length Nat.eqb].
      apply (aggregate_blocks plugin_record Plugin.groupKey Plugin.metric);
        reflexivity.
    + intros Hg. rewrite Hg.
      destruct nums as [| c cs] eqn:E; [split; [reflexivity | intros r []] |].
      cbn [length Nat.eqb].
      apply (aggregate_ungrouped plugin_record Plugin.groupKey Plugin.metric);
        reflexivity.
    + intros Hnd.
      destruct nums as [| c cs] eqn:E; [constructor |]. cbn [length Nat.eqb].
      apply (aggregate_unique plugin_record Plugin.groupKey Plugin.metric);
        try reflexivity.
      rewrite <- E. unfold nums. rewrite plugin_classify. cbn [fst].
      apply List.NoDup_filter, Hnd.
  - unfold out. rewrite react_draw_aggregate. cbv zeta. fold nums cats g.
    repeat apply conj.
    + intros Hd Hne Hg. rewrite Hg.
      destruct data as [| d data]; [congruence |]. cbn [length Nat.eqb].
      destruct nums as [| c cs] eqn:E; [congruence |]. cbn [length Nat.eqb].
      apply (aggregate_blocks react_record ReactProper.group ReactProper.metric);
        reflexivity.
    + intros Hd Hg. rewrite Hg.
      destruct data as [| d data]; [congruence |]. cbn [length Nat.eqb].
      destruct nums as [| c cs] eqn:E; [split; [reflexivity | intros r []] |].
      cbn [length Nat.eqb].
      apply (aggregate_ungrouped react_record ReactProper.group ReactProper.metric);
        reflexivity.
    + intros Hnd.
      destruct data as [| d data]; [constructor |]. cbn [length Nat.eqb].
      destruct nums as [| c cs] eqn:E; [constructor |]. cbn [length Nat.eqb].
      apply (aggregate_unique react_record ReactProper.group ReactProper.metric);
        try reflexivity.
      rewrite <- E. apply List.NoDup_filter, Hnd.
Qed.

Lemma C9_output_order_witness :
  (exists blocks,
     Plugin._processRawData sample_rows config_single sample_schema = concat blocks
     /\ Forall2 (fun k block =>
                   Forall (fun r => Plugin.groupKey r = k) block
                   /\ sublist (map Plugin.metric block) ["sales"])
          [str "N"; str "S"] blocks)
  /\ ForallOrdPairs
       (fun r1 r2 =>
          ~ (sameValueZero (Plugin.groupKey r1) (Plugin.groupKey r2) = true
             /\ Plugin.metric r1 = Plugin.metric r2))
       (Plugin._processRawData sample_rows config_single sample_schema).
Proof.
  split.
  - apply (proj1 (proj1 C9_output_order sample_rows config_single sample_schema)).
    + discriminate.
    + reflexivity.
  - apply (proj2 (proj2 (proj1 C9_output_order sample_rows config_single
                           sample_schema))).
    repeat constructor; simpl; intuition discriminate.
Defined.

(** C9, as stated, fails: without grouping, a metric column none of whose
    fields coerces to a number has no record at all. *)
Lemma C9_counterexample :
  ~ (forall m,
       In m (fst (Plugin.classify sample_schema (configColumns config_metrics))) ->
       exists r, In r (Plugin._processRawData sample_rows config_metrics sample_schema)
                 /\ Plugin.metric r = m /\ Plugin.groupKey r = str m)
  /\ ~ (forall m,
          In m (ReactProper.numericColumns sample_schema (configColumns config_metrics)) ->
          exists r, In r (ReactProper.draw sample_rows config_metrics sample_schema)
                    /\ ReactProper.metric r = m /\ ReactProper.group r = str m).
Proof.
  split; intros H.
  - destruct (H "profit") as (r & Hr & Hm & _).
    + vm_compute. right. left. reflexivity.
    + vm_compute in Hr. destruct Hr as [<- | []]. discriminate.
  - destruct (H "profit") as (r & Hr & Hm & _).
    + vm_compute. right. left. reflexivity.
    + vm_compute in Hr. destruct Hr as [<- | []]. discriminate.
Qed.

(** C10.  In every record of either pipeline the values are ascending and
    the outliers are a subsequence of them, hence ascending too. *)
Theorem C10_outliers_sorted :
  (forall data config schema r,
     In r (Plugin._processRawData data config schema) ->
     exists st, Plugin.stats r = Some st
                /\ StronglySorted leP (Plugin.values r)
                /\ sublist (Plugin.outliers st) (Plugin.values r)
                /\ StronglySorted leP (Plugin.outliers st))
  /\ (forall data config schema r,
        In r (ReactProper.draw data config schema) ->
        StronglySorted leP (ReactProper.values r)
        /\ sublist (ReactProper.outliers (ReactProper.stats r)) (ReactProper.values r)
        /\ StronglySorted leP (ReactProper.outliers (ReactProper.stats r))).
Proof.
  split; intros data config schema r Hr.
  - apply plugin_In in Hr. destruct Hr as (k & rows & m & i & -> & Hne & _).
    cbn [plugin_record Plugin.values Plugin.stats].
    destruct (plugin_stats_outliers _ Hne) as (st & Hst & Ho & _).
    exists st. rewrite Ho.
    rewrite sort_sorted_id by apply cellValues_sorted.
    repeat split; [exact Hst | apply cellValues_sorted | apply filter_sublist |].
    apply sorted_filter, cellValues_sorted.
  - apply react_In in Hr. destruct Hr as (k & rows & m & i & -> & Hne & _).
    cbn [react_record ReactProper.values ReactProper.stats].
    destruct (react_stats_outliers (Plugin.cellValues rows m)) as [Ho _].
    rewrite Ho.
    rewrite sort_sorted_id by apply cellValues_sorted.
    repeat split; [apply cellValues_sorted | apply filter_sublist |].
    apply sorted_filter, cellValues_sorted.
Qed.

Lemma C10_outliers_sorted_witness :
  let r := hd (plugin_record undefined "" 0 [])
              (Plugin._processRawData sample_rows config_single sample_schema) in
  exists st, Plugin.stats r = Some st
             /\ StronglySorted leP (Plugin.values r)
             /\ sublist (Plugin.outliers st) (Plugin.values r)
             /\ StronglySorted leP (Plugin.outliers st).
Proof.
  apply (proj1 C10_outliers_sorted sample_rows config_single sample_schema).
  vm_compute. left. reflexivity.
Defined.

(* ================================================================== *)
(** ** The scenarios of section 8 *)
(* ================================================================== *)

Example scenario_two_groups :
  fst (Plugin.resolveGroupBy config_single
         (snd (Plugin.classify sample_schema (configColumns config_single))))
  = Some "region"
  /\ map (fun r => (Plugin.groupKey r, Plugin.metric r, Plugin.values r))
       (Plugin._processRawData sample_rows config_single sample_schema)
     = [ (str "N", "sales", fin [10; 20]%Z); (str "S", "sales", fin [5]%Z) ].
Proof. split; vm_compute; reflexivity. Qed.

Example scenario_no_categorical :
  map (fun r => (Plugin.groupKey r, Plugin.metric r))
    (Plugin._processRawData
       [ mkrow [("sales", int 1); ("profit", int 2)] ] config_metrics sample_schema)
  = [ (str "sales", "sales"); (str "profit", "profit") ].
Proof. vm_compute. reflexivity. Qed.

Example scenario_ambiguous :
  Plugin.resolveGroupBy config_ambiguous
    (snd (Plugin.classify sample_schema (configColumns config_ambiguous)))
  = (Some "region", true).
Proof. reflexivity. Qed.

Example scenario_empty_metrics :
  Plugin._processDataForBoxplot sample_rows
    {| columns := Some ["region"]; group_by := None |} sample_schema = [].
Proof. reflexivity. Qed.

(* ================================================================== *)
(** ** Sets of strings and of values *)
(* ================================================================== *)

Section UniqueFacts.
Import JS.

Lemma In_uniqueStrings a x : In x (uniqueStrings a) <-> In x a.
Proof.
  induction a as [| y a IH]; simpl; [reflexivity |].
  rewrite List.filter_In, IH. split.
  - intros [H | [H _]]; auto.
  - intros [H | H]; [auto |].
    destruct (String.eqb_spec y x) as [E | E]; [auto |].
    right. split; [exact H | reflexivity].
Qed.

Lemma NoDup_uniqueStrings a : List.NoDup (uniqueStrings a).
Proof.
  induction a as [| y a IH]; simpl; constructor.
  - intros H. apply List.filter_In in H. destruct H as [_ H].
    rewrite String.eqb_refl in H. discriminate.
  - apply List.NoDup_filter, IH.
Qed.

Lemma In_discovery keys k : In k (discovery keys) -> In k keys.
Proof.
  revert k. induction keys as [| x keys IH]; intros k; simpl; [auto |].
  intros [H | H]; [auto |]. apply List.filter_In in H. right. apply IH, H.
Qed.

Lemma discovery_covers keys x :
  In x keys -> exists k, In k (discovery keys) /\ sameValueZero k x = true.
Proof.
  induction keys as [| y keys IH]; intros Hx; [destruct Hx |].
  simpl. destruct (sameValueZero y x) eqn:E.
  - exists y. auto.
  - destruct Hx as [-> | Hx]; [rewrite sameValueZero_refl in E; discriminate |].
    destruct (IH Hx) as (k & Hk & Hkx).
    exists k. split; [| exact Hkx]. right. apply List.filter_In.
    split; [exact Hk |]. apply Bool.negb_true_iff.
    destruct (sameValueZero y k) eqn:E'; [| reflexivity].
    rewrite <- E. symmetry. eapply sameValueZero_trans; eassumption.
Qed.

End UniqueFacts.

(* ================================================================== *)
(** ** The statistics lie within the data *)
(* ================================================================== *)

Section RangeFacts.
Import JS.
Local Open Scope Q_scope.






End RangeFacts.


(* ================================================================== *)
(** ** Strings *)
(* ================================================================== *)

Lemma length_substring0 n s :
  String.length (substring 0 n s) = Nat.min n (String.length s).
Proof.
  revert n. induction s as [| c s IH]; intros [| n]; simpl; auto.
Qed.

Lemma length_append s t :
  String.length (String.append s t) = (String.length s + String.length t)%nat.
Proof. induction s as [| c s IH]; simpl; auto. Qed.

Lemma substring0_append n s t :
  (n <= String.length s)%nat ->
  substring 0 n (String.append s t) = substring 0 n s.
Proof.
  revert n. induction s as [| c s IH]; intros [| n] H; simpl in *; try lia.
  - destruct t; reflexivity.
  - reflexivity.
  - rewrite IH by lia. reflexivity.
Qed.

Lemma substring0_idem n s : substring 0 n (substring 0 n s) = substring 0 n s.
Proof.
  revert n. induction s as [| c s IH]; intros [| n]; simpl; auto.
  rewrite IH. reflexivity.
Qed.

(* ================================================================== *)
(** ** Records of the plugin pipeline *)
(* ================================================================== *)

Section PluginRecords.
Import JS.

Lemma plugin_process_In data config schema r :
  In r (Plugin._processDataForBoxplot data config schema) ->
  In r (Plugin._processRawData data config schema).
Proof.
  unfold Plugin._processDataForBoxplot.
  destruct (length data =? 0)%nat; [intros [] | auto].
Qed.



(** Every record carries statistics. *)
Lemma plugin_stats_Some data config schema r :
  In r (Plugin._processDataForBoxplot data config schema) ->
  Plugin.values r <> []
  /\ Plugin.stats r = Plugin._calculateBoxplotStats (Plugin.values r)
  /\ exists st, Plugin.stats r = Some st.
Proof.
  intros Hr. apply plugin_process_In, plugin_In in Hr. cbv zeta in Hr.
  destruct Hr as (k & rows & m & i & -> & Hne & _ & _). simpl.
  split; [exact Hne |]. split; [reflexivity |].
  destruct (plugin_stats_outliers _ Hne) as (st & Hst & _). eauto.
Qed.



End PluginRecords.

(* ================================================================== *)
(** ** The lifecycle *)
(* ================================================================== *)

Section LifecycleFacts.
Import BoxplotPlugin.

Lemma settled_constructor : settled constructor.
Proof.
  repeat split; simpl; auto. intros [| j] c H; discriminate.
Qed.

Lemma settled_setInnerHTML st content :
  settled st -> settled (setInnerHTML st content).
Proof.
  intros (Hv & Hc & Hi & Ho). unfold setInnerHTML.
  destruct (_container st) as [i |] eqn:E; [| repeat split; auto; rewrite E; auto].
  repeat split; simpl; auto.
  - rewrite length_insert. exact Hi.
  - intros j c Hj Hne. destruct (Nat.eq_dec i j) as [-> | Hij]; [congruence |].
    apply (Ho j c); [| congruence].
    rewrite list_lookup_insert_ne in Hj by exact Hij. exact Hj.
Qed.

(** The first step of [draw]: the container is created when there is
    none. *)
Lemma settled_container st :
  settled st ->
  settled match _container st with
          | Some _ => st
          | None =>
              {| children := children st ++ [Empty];
                 _container := Some (length (children st));
                 _chart := _chart st; _view := _view st |}
          end.
Proof.
  intros (Hv & Hc & Hi & Ho).
  destruct (_container st) as [i |] eqn:E; [repeat split; auto; rewrite E; auto |].
  repeat split; simpl; auto.
  - rewrite length_app. simpl. lia.
  - intros j c Hj Hne.
    destruct (Nat.lt_ge_cases j (length (children st))) as [Hlt | Hge].
    + rewrite lookup_app_l in Hj by exact Hlt.
      apply (Ho j c Hj). discriminate.
    + rewrite lookup_app_r in Hj by exact Hge.
      destruct (j - length (children st))%nat as [| n] eqn:En.
      * exfalso. apply Hne. f_equal. lia.
      * destruct n; discriminate.
Qed.

Lemma settled_draw st env view : settled st -> settled (draw st env view).
Proof.
  intros H. apply settled_container in H. unfold draw. cbv zeta.
  destruct (match get_config view with Ok _ => _ | Throw e => _ end);
    apply settled_setInnerHTML, H.
Qed.

Lemma settled_call st c : settled st -> settled (call st c).
Proof.
  intros H. destruct c; simpl; auto using settled_draw.
  - unfold clear. destruct (_container st); auto using settled_setInnerHTML.
  - unfold resize. destruct (_view st); auto using settled_draw.
  - unfold delete.
    destruct (_container st) as [i |] eqn:E.
    + pose proof (settled_setInnerHTML st Empty H) as (Hv & Hc & Hi & Ho).
      unfold setInnerHTML in *. rewrite E in *. simpl in *.
      repeat split; simpl; auto.
      intros j c Hj _.
      destruct (Nat.eq_dec i j) as [-> | Hij].
      * rewrite list_lookup_insert_eq in Hj by (rewrite length_insert in Hi; lia).
        congruence.
      * apply (Ho j c Hj). congruence.
    + destruct H as (Hv & Hc & Hi & Ho). rewrite E in *.
      repeat split; simpl; auto.
Qed.

Lemma settled_calls calls st :
  settled st -> settled (fold_left call calls st).
Proof.
  revert st. induction calls as [| c calls IH]; intros st H; simpl; [exact H |].
  apply IH, settled_call, H.
Qed.

End LifecycleFacts.


(* ================================================================== *)
(** ** Loops that push one element per step *)
(* ================================================================== *)

Section ForEachFacts.
Context {A B : Type} (g : A -> nat -> B).

Lemma nth_error_forEach_from n l i :
  nth_error (forEach_from n (fun x k => [g x k]) l) i
  = option_map (fun x => g x (n + i)%nat) (nth_error l i).
Proof.
  revert n i. induction l as [| x l IH]; intros n [| i]; simpl; auto.
  - rewrite Nat.add_0_r. reflexivity.
  - rewrite IH. replace (S n + i)%nat with (n + S i)%nat by lia. reflexivity.
Qed.

Lemma nth_error_forEach l i :
  nth_error (forEach l (fun x k => [g x k])) i
  = option_map (fun x => g x i) (nth_error l i).
Proof. apply (nth_error_forEach_from 0). Qed.

Lemma map_forEach_from {C} (p : B -> C) (q : A -> C) n l :
  (forall x k, p (g x k) = q x) ->
  map p (forEach_from n (fun x k => [g x k]) l) = map q l.
Proof.
  intros H. revert n. induction l as [| x l IH]; intros n; simpl; [reflexivity |].
  rewrite H, IH. reflexivity.
Qed.

Lemma map_forEach {C} (p : B -> C) (q : A -> C) l :
  (forall x k, p (g x k) = q x) ->
  map p (forEach l (fun x k => [g x k])) = map q l.
Proof. apply map_forEach_from. Qed.

Lemma length_forEach l : length (forEach l (fun x k => [g x k])) = length l.
Proof.
  rewrite <- (length_map (fun _ => tt)), (map_forEach _ (fun _ => tt)).
  - apply length_map.
  - reflexivity.
Qed.

End ForEachFacts.

Lemma uniqueStrings_le_1 l :
  (length (uniqueStrings l) <= 1)%nat <-> forall x y, In x l -> In y l -> x = y.
Proof.
  destruct l as [| a l]; simpl.
  - split; [intros _ x y [] | lia].
  - split.
    + intros H.
      assert (Hall : forall x, In x l -> x = a).
      { intros x Hx. destruct (String.eqb_spec a x) as [E | E]; [auto |].
        exfalso.
        assert (Hin : In x (List.filter (fun y => negb (String.eqb a y))
                              (uniqueStrings l))).
        { apply List.filter_In. split; [apply In_uniqueStrings, Hx |].
          apply Bool.negb_true_iff, String.eqb_neq, E. }
        destruct (List.filter _ (uniqueStrings l)); [destruct Hin | simpl in H; lia]. }
      intros x y [<- | Hx] [<- | Hy]; auto.
      * symmetry. auto.
      * rewrite (Hall x Hx), (Hall y Hy). reflexivity.
    + intros H.
      assert (E : List.filter (fun y => negb (String.eqb a y)) (uniqueStrings l) = []).
      { destruct (List.filter _ (uniqueStrings l)) as [| x f] eqn:Ef; [reflexivity |].
        assert (Hx : In x (x :: f)) by (left; reflexivity).
        rewrite <- Ef in Hx. apply List.filter_In in Hx. destruct Hx as [Hx Hne].
        apply (proj1 (In_uniqueStrings _ _)) in Hx.
        rewrite (H a x (or_introl eq_refl) (or_intror Hx)) in Hne.
        rewrite String.eqb_refl in Hne.
        discriminate. }
      rewrite E. simpl. lia.
Qed.

(* ================================================================== *)
(** ** The extreme values of a record *)
(* ================================================================== *)

Section ExtremeFacts.
Import JS.
Local Open Scope Q_scope.








End ExtremeFacts.


(* ================================================================== *)
(** ** Rendering *)
(* ================================================================== *)

Section RenderFacts.
Import JS BoxplotPlugin.

Lemma flatMap_stats_Ok pd :
  Forall (fun r => exists st, Plugin.stats r = Some st) pd ->
  exists vs, flatMap_stats pd = Ok vs.
Proof.
  induction 1 as [| r pd (st & Hst) _ (vs & IH)]; simpl; [eauto |].
  rewrite Hst, IH. eauto.
Qed.


(** [_renderBoxplot] does not throw: its records all carry statistics. *)
Lemma renderBoxplot_cases w h data config schema :
  let pd := Plugin._processDataForBoxplot data config schema in
  (pd = [] /\ _renderBoxplot w h data config schema = Ok NoNumericData)
  \/ (pd <> []
      /\ exists vs,
           flatMap_stats pd = Ok vs
           /\ _renderBoxplot w h data config schema
              = Ok (Svg {| width := Math_max (Fin 400)
                                      (num (or_num (Some w) (Some (Fin 600))));
                           height := Math_max (Fin 300)
                                       (num (or_num (Some h) (Some (Fin 400))));
                           allValues := vs;
                           uniqueGroups := discovery (map Plugin.groupKey pd);
                           processedData := pd |})).
Proof.
  intros pd. unfold _renderBoxplot. fold pd.
  destruct pd as [| r pd'] eqn:E; [left; auto |].
  right. split; [discriminate |].
  destruct (flatMap_stats_Ok (r :: pd')) as (vs & Hvs).
  { apply List.Forall_forall. intros x Hx.
    apply (plugin_stats_Some data config schema). fold pd. rewrite E. exact Hx. }
  exists vs. split; [exact Hvs |].
  change (length (r :: pd') =? 0)%nat with false. cbv iota.
  rewrite Hvs. reflexivity.
Qed.

Lemma Math_max_ge a b :
  isNaN b = false -> le (Fin a) (Math_max (Fin a) b) = true.
Proof.
  intros Hb. unfold Math_max.
  destruct b as [| | q |]; try discriminate.
  - change (lt (Fin a) NegInf) with false. cbv iota. apply le_Fin, Qle_refl.
  - destruct (lt (Fin a) (Fin q)) eqn:E.
    + apply le_Fin. apply lt_Fin in E. apply Qlt_le_weak, E.
    + apply le_Fin, Qle_refl.
  - reflexivity.
Qed.

Lemma or_num_default a q :
  (q == 0 -> False)%Q -> isNaN (num (or_num a (Some (Fin q)))) = false.
Proof.
  intros Hq. unfold or_num.
  destruct a as [[| | x |] |]; simpl; try reflexivity.
  destruct (Qeq_bool x 0); reflexivity.
Qed.

Lemma getRawData_cases this_view parent view config :
  _getRawDataForBoxplot this_view parent view config = to_json view
  \/ exists t tv raw,
       findTable this_view parent view = Some t
       /\ BoxplotPlugin.view t (rawConfig config) = Ok tv
       /\ temp_to_json tv = Ok raw
       /\ temp_delete tv = Ok tt
       /\ _getRawDataForBoxplot this_view parent view config = Ok raw.
Proof.
  unfold _getRawDataForBoxplot.
  destruct (findTable this_view parent view) as [t |];
    [| left; destruct (to_json view); reflexivity].
  destruct (BoxplotPlugin.view t (rawConfig config)) as [tv | e] eqn:Ev;
    [| left; reflexivity].
  destruct (temp_to_json tv) as [raw | e] eqn:Er; [| left; reflexivity].
  destruct (temp_delete tv) as [[] | e] eqn:Ed; [| left; reflexivity].
  right. exists t, tv, raw. auto.
Qed.

End RenderFacts.


(* ================================================================== *)
(** ** Records with finite values *)
(* ================================================================== *)

Section FiniteRecords.
Import JS BoxplotPlugin.
Local Open Scope Q_scope.



End FiniteRecords.


(* ================================================================== *)
(** ** First occurrences of the keys of grouped records *)
(* ================================================================== *)

Section DiscoveryBlocks.
Import JS.

Lemma filter_all {A} (f : A -> bool) l :
  (forall x, In x l -> f x = true) -> List.filter f l = l.
Proof.
  induction l as [| x l IH]; intros H; simpl; [reflexivity |].
  rewrite (H x) by (left; reflexivity). rewrite IH; [reflexivity |].
  intros y Hy. apply H. right. exact Hy.
Qed.

Lemma filter_nonempty {A} (f : A -> bool) l :
  negb (length (List.filter f l) =? 0)%nat = existsb f l.
Proof.
  induction l as [| x l IH]; simpl; [reflexivity |].
  destruct (f x); simpl; [reflexivity | exact IH].
Qed.

Lemma discovery_app_same k same rest :
  (forall x, In x same -> x = k) ->
  (forall y, In y rest -> sameValueZero k y = false) ->
  discovery (same ++ rest)
  = if (length same =? 0)%nat then discovery rest else k :: discovery rest.
Proof.
  intros Hsame Hrest.
  assert (Hfix : List.filter (fun k' => negb (sameValueZero k k')) (discovery rest)
                 = discovery rest).
  { apply filter_all. intros y Hy. apply Bool.negb_true_iff, Hrest.
    apply In_discovery, Hy. }
  induction same as [| x same IH]; [reflexivity |].
  assert (Ex : x = k) by (apply Hsame; left; reflexivity). subst x.
  cbn [app discovery length Nat.eqb]. f_equal.
  rewrite IH by (intros x Hx; apply Hsame; right; exact Hx).
  destruct (length same =? 0)%nat; [exact Hfix |].
  cbn [List.filter]. rewrite sameValueZero_refl. exact Hfix.
Qed.

Context {R : Type} (keyOf : R -> value) (blk : value -> list R).

Lemma discovery_blocks ks :
  ForallOrdPairs (fun a b => sameValueZero a b = false) ks ->
  (forall k r, In r (blk k) -> keyOf r = k) ->
  discovery (map keyOf (flat_map blk ks))
  = List.filter (fun k => negb (length (blk k) =? 0)%nat) ks.
Proof.
  intros Hks Hblk. induction Hks as [| k ks Hk Hks IH]; [reflexivity |].
  cbn [flat_map List.filter]. rewrite map_app.
  rewrite (discovery_app_same k).
  - rewrite length_map, IH. destruct (length (blk k) =? 0)%nat; reflexivity.
  - intros x Hx. apply in_map_iff in Hx. destruct Hx as (r & <- & Hr).
    apply (Hblk k r Hr).
  - intros y Hy. apply in_map_iff in Hy. destruct Hy as (r & <- & Hr).
    apply in_flat_map in Hr. destruct Hr as (k' & Hk' & Hr).
    rewrite (Hblk k' r Hr). rewrite List.Forall_forall in Hk. apply Hk, Hk'.
Qed.

End DiscoveryBlocks.


(* ================================================================== *)
(** ** Groups of records *)
(* ================================================================== *)

Section GroupSize.
Import JS.






End GroupSize.

(* ================================================================== *)
(** ** Further properties of the code *)
(* ================================================================== *)

Section Further.
Import JS BoxplotPlugin.
Local Open Scope Q_scope.

(** X1. In every record of [_processRawData] the label is the group key,
    [metricIndex] is the position of the metric among the numeric columns
    (the configured columns of type float or integer, in order) and the
    statistics are those of the record's own values. *)
Theorem X1_record_fields data config schema r :
  In r (Plugin._processRawData data config schema) ->
  Plugin.label r = Plugin.groupKey r
  /\ nth_error
       (List.filter (fun col => type_is schema col "float"
                                || type_is schema col "integer")
          (configColumns config))
       (Plugin.metricIndex r) = Some (Plugin.metric r)
  /\ Plugin.stats r = Plugin._calculateBoxplotStats (Plugin.values r).
Proof.
  intros Hr. apply plugin_In in Hr. cbv zeta in Hr.
  destruct Hr as (k & rows & m & i & -> & _ & Hi & _).
  rewrite plugin_classify in Hi. simpl in *. auto.
Qed.

Lemma X1_record_fields_witness :
  exists r,
    In r (Plugin._processRawData sample_rows config_single sample_schema)
    /\ Plugin.label r = Plugin.groupKey r
    /\ nth_error
         (List.filter (fun col => type_is sample_schema col "float"
                                  || type_is sample_schema col "integer")
            (configColumns config_single))
         (Plugin.metricIndex r) = Some (Plugin.metric r)
    /\ Plugin.stats r = Plugin._calculateBoxplotStats (Plugin.values r).
Proof.
  eexists. split; [vm_compute; left; reflexivity |].
  apply (X1_record_fields sample_rows config_single sample_schema).
  vm_compute. left. reflexivity.
Defined.





(** X4. The domain of the x scale is exactly the sequence of keys under
    which [_drawBoxplots] groups the records, so every group of boxes has
    a band of its own: no two bands have the same key and every record's
    key has a band.  When the rows are grouped by a column, the bands
    follow the first occurrences of the keys among the rows, the keys
    without any retained value being left out. *)
Theorem X4_x_domain w h data config schema chart :
  _renderBoxplot w h data config schema = Ok (Svg chart) ->
  let nums := fst (Plugin.classify schema (configColumns config)) in
  let g := fst (Plugin.resolveGroupBy config
                  (snd (Plugin.classify schema (configColumns config)))) in
  uniqueGroups chart
  = map fst (D3.group (processedData chart) Plugin.groupKey)
  /\ ForallOrdPairs (fun a b => sameValueZero a b = false) (uniqueGroups chart)
  /\ (forall r, In r (processedData chart) ->
        exists k, In k (uniqueGroups chart)
                  /\ sameValueZero k (Plugin.groupKey r) = true)
  /\ (truthy_column g = true ->
      uniqueGroups chart
      = List.filter
          (fun k => existsb (has_values (partition_of (plugin_key g) k data)) nums)
          (discovery (map (plugin_key g) data))).
Proof.
  intros Hrender nums g.
  destruct (renderBoxplot_cases w h data config schema)
    as [[_ H] | [Hne (vs & _ & H)]]; rewrite H in Hrender; [discriminate |].
  injection Hrender as <-. cbn [processedData uniqueGroups].
  split; [symmetry; apply group_keys |].
  split; [apply discovery_distinct |].
  split.
  { intros r Hr. apply discovery_covers, in_map, Hr. }
  intros Hg. revert Hne. unfold Plugin._processDataForBoxplot.
  destruct (length data =? 0)%nat; [congruence |].
  rewrite plugin_aggregate. cbv zeta. fold nums g.
  destruct (length nums =? 0)%nat; [congruence |]. intros _.
  rewrite Hg, aggregate_grouped.
  rewrite (discovery_blocks Plugin.groupKey
             (fun k => forEach_from 0
                         (fun m i => cell plugin_record k
                                       (partition_of (plugin_key g) k data) m i)
                         nums)).
  - apply List.filter_ext. intros k.
    rewrite <- filter_nonempty. f_equal. f_equal.
    rewrite <- (length_map Plugin.metric).
    rewrite (pass_metrics plugin_record Plugin.metric
               (fun _ _ _ _ => eq_refl) (fun _ => k)).
    reflexivity.
  - apply discovery_distinct.
  - intros k r Hr.
    apply (pass_keys plugin_record Plugin.groupKey Plugin.metric
             (fun _ _ _ _ => eq_refl) (fun _ _ _ _ => eq_refl) (fun _ => k)) in Hr.
    exact Hr.
Qed.

Lemma X4_x_domain_witness :
  exists chart,
    _renderBoxplot (Fin 0) (Fin 0) sample_rows config_single sample_schema
    = Ok (Svg chart)
    /\ uniqueGroups chart = [str "N"; str "S"].
Proof.
  destruct (renderBoxplot_cases (Fin 0) (Fin 0) sample_rows config_single
              sample_schema) as [[E _] | [_ (vs & _ & Hrender)]];
    [vm_compute in E; discriminate |].
  eexists. split; [exact Hrender |].
  rewrite (proj2 (proj2 (proj2
             (X4_x_domain (Fin 0) (Fin 0) sample_rows config_single sample_schema
                _ Hrender))) eq_refl).
  vm_compute. reflexivity.
Defined.

(** X5. [_renderBoxplot] never throws.  It shows the message "No numeric
    data available for boxplot" exactly when the pipeline yields no
    record, and otherwise a chart of the pipeline's records that is at
    least 400 wide and 300 high; a container of width 0 gets the default
    width 600, not 400. *)
Theorem X5_render_outcome w h data config schema :
  exists content,
    _renderBoxplot w h data config schema = Ok content
    /\ (Plugin._processDataForBoxplot data config schema = []
        -> content = NoNumericData)
    /\ (Plugin._processDataForBoxplot data config schema <> []
        -> exists chart,
             content = Svg chart
             /\ processedData chart
                = Plugin._processDataForBoxplot data config schema
             /\ le (Fin 400) (width chart) = true
             /\ le (Fin 300) (height chart) = true
             /\ (w = Fin 0 -> width chart = Fin 600)).
Proof.
  destruct (renderBoxplot_cases w h data config schema) as [[E H] | [Hne (vs & _ & H)]];
    rewrite H; eexists; (split; [reflexivity |]); split; try congruence.
  intros _. eexists. split; [reflexivity |]. simpl.
  split; [reflexivity |].
  split; [| split].
  - apply Math_max_ge, or_num_default. discriminate.
  - apply Math_max_ge, or_num_default. discriminate.
  - intros ->. reflexivity.
Qed.

Lemma X5_render_outcome_witness :
  exists chart,
    _renderBoxplot (Fin 0) (Fin 0) sample_rows config_single sample_schema
    = Ok (Svg chart)
    /\ width chart = Fin 600.
Proof.
  destruct (X5_render_outcome (Fin 0) (Fin 0) sample_rows config_single
              sample_schema) as (content & Hc & _ & H).
  destruct H as (chart & -> & _ & _ & _ & Hw); [vm_compute; discriminate |].
  exists chart. split; [exact Hc | apply Hw; reflexivity].
Defined.

(** X6. The legend is drawn exactly when the records have at least two
    different metrics.  It then lists each metric that has a record once,
    in order of first appearance, item [i] at offset [30 * i] on a
    background of height [30 * n + 10]; and the colour of an item is the
    colour of every box of its metric. *)
Theorem X6_legend scaleOrdinal processedData w :
  (_drawLegend scaleOrdinal processedData w = None
   <-> forall r1 r2, In r1 processedData -> In r2 processedData ->
                     Plugin.metric r1 = Plugin.metric r2)
  /\ forall lg,
       _drawLegend scaleOrdinal processedData w = Some lg ->
       List.NoDup (map item_text (items lg))
       /\ (forall m, In m (map item_text (items lg))
                     <-> exists r, In r processedData /\ Plugin.metric r = m)
       /\ (forall i it, nth_error (items lg) i = Some it ->
                        item_y it = (i * 30)%nat)
       /\ background_height lg = (length (items lg) * 30 + 10)%nat
       /\ (forall xScale bandwidth it b,
             In it (items lg) ->
             In b (_drawBoxplots scaleOrdinal xScale bandwidth processedData) ->
             item_text it = data_metric b -> item_color it = color b).
Proof.
  unfold _drawLegend.
  set (allMetrics := uniqueStrings (map Plugin.metric processedData)).
  split.
  - destruct (Nat.leb_spec (length allMetrics) 1) as [Hle | Hgt].
    + split; [intros _ | reflexivity].
      intros r1 r2 H1 H2.
      apply (proj1 (uniqueStrings_le_1 (map Plugin.metric processedData)) Hle);
        apply in_map; assumption.
    + split; [discriminate |]. intros H. exfalso.
      assert (Hle : (length allMetrics <= 1)%nat); [| lia].
      apply uniqueStrings_le_1. intros x y Hx Hy.
      apply in_map_iff in Hx. destruct Hx as (r1 & <- & H1).
      apply in_map_iff in Hy. destruct Hy as (r2 & <- & H2). auto.
  - intros lg. destruct (length allMetrics <=? 1)%nat; [discriminate |].
    intros [= <-]. cbn [items background_height].
    assert (Htext : map item_text
                      (forEach allMetrics (fun metric i =>
                         [ {| item_y := (i * 30)%nat;
                              item_color := scaleOrdinal allMetrics metric;
                              item_text := metric |} ])) = allMetrics).
    { rewrite (map_forEach _ item_text (fun m => m)) by reflexivity.
      apply map_id. }
    rewrite Htext. split; [apply NoDup_uniqueStrings |].
    split.
    { intros m. unfold allMetrics. rewrite In_uniqueStrings, in_map_iff.
      split; intros (r & H1 & H2); exists r; auto. }
    split.
    { intros i it Hit. rewrite nth_error_forEach in Hit.
      destruct (nth_error allMetrics i); [| discriminate].
      injection Hit as <-. reflexivity. }
    split; [rewrite length_forEach; reflexivity |].
    intros xScale bandwidth it b Hit Hb Heq.
    apply In_forEach in Hit. destruct Hit as (i & m & _ & [<- | []]).
    unfold _drawBoxplots in Hb. apply in_flat_map in Hb.
    destruct Hb as ([k gd] & _ & Hb). unfold groupBoxes in Hb.
    apply In_forEach in Hb. destruct Hb as (j & r & _ & [<- | []]).
    cbn [item_text data_metric item_color color] in *. rewrite Heq. reflexivity.
Qed.

Lemma X6_legend_witness :
  _drawLegend (fun _ m => m)
    (Plugin._processDataForBoxplot sample_rows config_single sample_schema)
    (Fin 600) = None.
Proof.
  apply (proj1 (X6_legend (fun _ m => m)
                  (Plugin._processDataForBoxplot sample_rows config_single
                     sample_schema) (Fin 600))).
  vm_compute. intros r1 r2 [<- | [<- | []]] [<- | [<- | []]]; reflexivity.
Defined.

(** X7. [_drawBoxplots] draws every record exactly once: the metrics and
    statistics of the boxes are, up to order, those of the records; and
    each box carries the key of its group, which is the key of its record
    (under SameValueZero), and the colour of its metric. *)
Theorem X7_boxes_drawn scaleOrdinal xScale bandwidth processedData :
  Permutation
    (map (fun b => (data_metric b, drawn b))
       (_drawBoxplots scaleOrdinal xScale bandwidth processedData))
    (map (fun r => (Plugin.metric r, Plugin.stats r)) processedData)
  /\ forall b,
       In b (_drawBoxplots scaleOrdinal xScale bandwidth processedData) ->
       exists r, In r processedData
                 /\ sameValueZero (data_group b) (Plugin.groupKey r) = true
                 /\ data_metric b = Plugin.metric r
                 /\ drawn b = Plugin.stats r
                 /\ color b
                    = scaleOrdinal
                        (uniqueStrings (map Plugin.metric processedData))
                        (Plugin.metric r).
Proof.
  unfold _drawBoxplots.
  set (allMetrics := uniqueStrings (map Plugin.metric processedData)).
  split.
  - assert (E : map (fun b => (data_metric b, drawn b))
                   (flat_map
                      (fun '(groupKey, groupData) =>
                         groupBoxes scaleOrdinal xScale bandwidth allMetrics
                           groupKey groupData)
                      (D3.group processedData Plugin.groupKey))
                 = map (fun r => (Plugin.metric r, Plugin.stats r))
                     (concat (map snd (D3.group processedData Plugin.groupKey)))).
    { induction (D3.group processedData Plugin.groupKey) as [| [k gd] groups IH];
        [reflexivity |].
      cbn [flat_map]. rewrite map_app, IH.
      cbn [map concat snd]. rewrite map_app. f_equal.
      unfold groupBoxes. apply map_forEach. reflexivity. }
    rewrite E. apply Permutation_map, group_perm.
  - intros b Hb. apply in_flat_map in Hb. destruct Hb as ([k gd] & Hg & Hb).
    unfold groupBoxes in Hb.
    apply In_forEach in Hb. destruct Hb as (j & r & Hj & [<- | []]).
    destruct (group_members Plugin.groupKey processedData k gd Hg) as [-> _].
    apply nth_error_In, List.filter_In in Hj. destruct Hj as [Hr Hk].
    exists r. cbn. auto.
Qed.

Lemma X7_boxes_drawn_witness :
  exists b,
    In b (_drawBoxplots (fun _ m => m) (fun _ => 0%Q) 100%Q
            (Plugin._processDataForBoxplot sample_rows config_single
               sample_schema))
    /\ exists r, In r (Plugin._processDataForBoxplot sample_rows config_single
                         sample_schema)
                 /\ drawn b = Plugin.stats r.
Proof.
  eexists. split; [vm_compute; left; reflexivity |].
  destruct (proj2 (X7_boxes_drawn (fun _ m => m) (fun _ => 0%Q) 100%Q
                     (Plugin._processDataForBoxplot sample_rows config_single
                        sample_schema)) _
              ltac:(vm_compute; left; reflexivity))
    as (r & Hr & _ & _ & Hd & _).
  exists r. split; [exact Hr | exact Hd].
Defined.



(** X9. The label of an x-axis group is never longer than 18 characters:
    a key of at most 15 characters is shown as it is, a longer one as its
    first 15 characters and three dots, so that two long keys with the
    same first 15 characters get the same label. *)
Theorem X9_axis_label d d' :
  (String.length (xLabel d) <= 18)%nat
  /\ ((String.length d <= 15)%nat -> xLabel d = d)
  /\ ((15 < String.length d)%nat
      -> String.length (xLabel d) = 18%nat
         /\ substring 0 15 (xLabel d) = substring 0 15 d)
  /\ ((15 < String.length d)%nat -> (15 < String.length d')%nat
      -> substring 0 15 d = substring 0 15 d' -> xLabel d = xLabel d').
Proof.
  unfold xLabel.
  destruct (Nat.ltb_spec 15 (String.length d)) as [Hd | Hd].
  - assert (Hl : String.length (String.append (substring 0 15 d) "...") = 18%nat).
    { rewrite length_append, length_substring0. simpl String.length. lia. }
    split; [lia |]. split; [lia |]. split.
    + intros _. split; [exact Hl |].
      rewrite substring0_append by (rewrite length_substring0; lia).
      apply substring0_idem.
    + intros _ Hd' E. apply Nat.ltb_lt in Hd'. rewrite Hd', E. reflexivity.
  - split; [lia |]. split; [reflexivity |]. split; lia.
Qed.

Lemma X9_axis_label_witness :
  xLabel "Northern Territory (west)" = xLabel "Northern Territory (east)".
Proof.
  apply (proj2 (proj2 (proj2
           (X9_axis_label "Northern Territory (west)" "Northern Territory (east)"))));
    [simpl; lia | simpl; lia | reflexivity].
Defined.



(** X11. [_getRawDataForBoxplot] fails only if [view.to_json()] fails, and
    then with that error.  Without a reachable table it returns the
    view's own rows.  It returns the rows of the temporary raw view only
    if creating that view, reading it and deleting it all succeed: when
    [tempView.delete()] fails, the raw rows already read are dropped and
    the view's own rows are returned instead. *)
Theorem X11_raw_rows this_view parent view config :
  (forall e, _getRawDataForBoxplot this_view parent view config = Throw e
             -> to_json view = Throw e)
  /\ (findTable this_view parent view = None
      -> _getRawDataForBoxplot this_view parent view config = to_json view)
  /\ (forall t tv raw,
        findTable this_view parent view = Some t ->
        BoxplotPlugin.view t (rawConfig config) = Ok tv ->
        temp_to_json tv = Ok raw ->
        (temp_delete tv = Ok tt
         -> _getRawDataForBoxplot this_view parent view config = Ok raw)
        /\ (forall e, temp_delete tv = Throw e
            -> _getRawDataForBoxplot this_view parent view config
               = to_json view))
  /\ (forall rows,
        _getRawDataForBoxplot this_view parent view config = Ok rows ->
        to_json view = Ok rows
        \/ exists t tv,
             findTable this_view parent view = Some t
             /\ BoxplotPlugin.view t (rawConfig config) = Ok tv
             /\ temp_to_json tv = Ok rows /\ temp_delete tv = Ok tt).
Proof.
  split; [| split; [| split]].
  - intros e H.
    destruct (getRawData_cases this_view parent view config)
      as [E | (t & tv & raw & _ & _ & _ & _ & E)]; congruence.
  - intros E. unfold _getRawDataForBoxplot. rewrite E.
    destruct (to_json view); reflexivity.
  - intros t tv raw Et Ev Er. unfold _getRawDataForBoxplot.
    rewrite Et, Ev, Er. split.
    + intros ->. reflexivity.
    + intros e ->. reflexivity.
  - intros rows H.
    destruct (getRawData_cases this_view parent view config)
      as [E | (t & tv & raw & Et & Ev & Er & Ed & E)].
    + left. congruence.
    + right. exists t, tv. rewrite E in H. injection H as <-. auto.
Qed.

Lemma X11_raw_rows_witness :
  _getRawDataForBoxplot None (Some leaky_table) sample_view
    {| config := config_single; filter := None |}
  = Ok sample_rows.
Proof.
  apply (proj2 (proj1 (proj2 (proj2
           (X11_raw_rows None (Some leaky_table) sample_view
              {| config := config_single; filter := None |})))
           leaky_table
           {| temp_to_json := Ok skewed_rows;
              temp_delete := Throw "View already deleted" |}
           skewed_rows eq_refl eq_refl eq_refl)
         "View already deleted" eq_refl).
Defined.

(** X12. Whatever was called before, a [draw] with a view whose
    [get_config()], [schema()] and [to_json()] succeed never shows an
    error message: the container then holds either the message "No
    numeric data available for boxplot" or a chart, whatever the table
    and its temporary view do. *)
Theorem X12_draw_outcome calls env view cfg sch rows :
  get_config view = Ok cfg -> BoxplotPlugin.schema view = Ok sch ->
  to_json view = Ok rows ->
  let st := draw (fold_left call calls constructor) env view in
  exists i content,
    _container st = Some i /\ children st !! i = Some content
    /\ (content = NoNumericData \/ exists chart, content = Svg chart).
Proof.
  intros Hc Hs Hj.
  pose proof (settled_calls calls constructor settled_constructor) as Hst.
  apply settled_container in Hst. unfold draw. cbv zeta.
  set (st0 := match _container (fold_left call calls constructor) with
              | Some _ => _ | None => _ end) in *.
  assert (Hi : exists i, _container st0 = Some i /\ (i < length (children st0))%nat).
  { destruct Hst as (_ & _ & Hi & _). subst st0.
    destruct (_container (fold_left call calls constructor)) as [i |] eqn:E.
    - rewrite E in *. exists i. split; [reflexivity | lia].
    - simpl. eexists. split; [reflexivity |]. rewrite length_app. simpl. lia. }
  destruct Hi as (i & Ei & Hlt).
  rewrite Hc, Hs.
  assert (Hraw : exists raw, _getRawDataForBoxplot (_view st0)
                               (parentElement_table env) view cfg = Ok raw).
  { destruct (getRawData_cases (_view st0) (parentElement_table env) view cfg)
      as [E | (t & tv & raw & _ & _ & _ & _ & E)]; rewrite E; eauto. }
  destruct Hraw as (raw & ->).
  assert (Hcontent : exists content,
             _renderBoxplot (rect_width env) (rect_height env) raw (config cfg) sch
             = Ok content
             /\ (content = NoNumericData \/ exists chart, content = Svg chart)).
  { destruct (renderBoxplot_cases (rect_width env) (rect_height env) raw
                (config cfg) sch) as [[_ H] | [_ (vs & _ & H)]];
      rewrite H; eauto. }
  destruct Hcontent as (content & -> & Hcases).
  exists i, content. unfold setInnerHTML. rewrite Ei. simpl.
  split; [reflexivity |]. split; [| exact Hcases].
  apply list_lookup_insert_eq, Hlt.
Qed.

Lemma X12_draw_outcome_witness :
  exists i content,
    _container (draw (fold_left call [Clear; Delete] constructor)
                  sample_surroundings sample_view) = Some i
    /\ children (draw (fold_left call [Clear; Delete] constructor)
                   sample_surroundings sample_view) !! i = Some content
    /\ (content = NoNumericData \/ exists chart, content = Svg chart).
Proof.
  apply (X12_draw_outcome [Clear; Delete] sample_surroundings sample_view
           {| config := config_single; filter := None |} sample_schema
           sample_rows); reflexivity.
Defined.

(** X13. From the constructor on, whatever methods are called in whatever
    order, no view is ever stored in [_view] and no chart in [_chart], so
    that [resize] never redraws; the container, when there is one, is the
    last child of the element and every other child is an empty [div].
    Such a [div] is left behind by each [delete]: the next [draw] appends
    a new container and the element has one more child. *)
Theorem X13_lifecycle calls :
  let st := fold_left call calls constructor in
  _view st = None /\ _chart st = None
  /\ (forall env, resize st env = st)
  /\ match _container st with
     | Some i => S i = length (children st)
     | None => True
     end
  /\ (forall j c, children st !! j = Some c -> _container st <> Some j
                  -> c = Empty)
  /\ (forall env view,
        length (children (draw (delete st) env view))
        = S (length (children st))).
Proof.
  intros st.
  pose proof (settled_calls calls constructor settled_constructor)
    as (Hv & Hc & Hi & Ho).
  fold st in Hv, Hc, Hi, Ho.
  split; [exact Hv |]. split; [exact Hc |].
  split; [intros env; unfold resize; rewrite Hv; reflexivity |].
  split; [exact Hi |]. split; [exact Ho |].
  intros env view.
  assert (Hd : _container (delete st) = None
               /\ length (children (delete st)) = length (children st)).
  { unfold delete, setInnerHTML. destruct (_container st) eqn:E; simpl.
    - split; [reflexivity | apply length_insert].
    - auto. }
  destruct Hd as (Hd & Hl). revert Hd Hl. generalize (delete st). intros d Hd Hl.
  unfold draw. rewrite Hd. cbv zeta.
  destruct (match get_config view with Ok _ => _ | Throw e => _ end);
    unfold setInnerHTML; simpl; rewrite length_insert, length_app, Hl; simpl; lia.
Qed.

Lemma X13_lifecycle_witness :
  resize (fold_left call
            [Draw sample_surroundings sample_view; Resize sample_surroundings;
             Delete; Update sample_surroundings sample_view]
            constructor) sample_surroundings
  = fold_left call
      [Draw sample_surroundings sample_view; Resize sample_surroundings;
       Delete; Update sample_surroundings sample_view]
      constructor.
Proof.
  apply (proj1 (proj2 (proj2
           (X13_lifecycle
              [Draw sample_surroundings sample_view; Resize sample_surroundings;
               Delete; Update sample_surroundings sample_view])))).
Defined.



End Further.
